(** * The host/device memory manager [mm] of MFEM (general/mm.cpp)

    A shallow embedding of the address registry, the range resolver, the
    synchronisation operations and the debug address shifter, followed by
    the properties of the written specification that concern them. *)

From stdpp Require Import gmap list.

Open Scope Z_scope.

(** ** Machine data *)

(** Addresses ([void*]) and [size_t] values are 64-bit unsigned words. *)
Definition NULL : Z := 0.
Definition SIZE_MAX1 : Z := 2 ^ 64.
Definition to_size_t (z : Z) : Z := z mod SIZE_MAX1.

(** [((size_t* ) p) + n] and [((size_t* ) p) - n]: the pointee is eight bytes
    wide, so the address moves by [8 * n] bytes. *)
Definition sizeof_size_t : Z := 8.
Definition ptr_add (p n : Z) : Z := to_size_t (p + sizeof_size_t * n).
Definition ptr_sub (p n : Z) : Z := to_size_t (p - sizeof_size_t * n).
(** [(size_t* ) p - (size_t* ) q], stored in a [size_t]. *)
Definition ptr_diff (p q : Z) : Z := to_size_t ((p - q) / sizeof_size_t).
Definition size_t_mul (a b : Z) : Z := to_size_t (a * b).
Definition size_t_sub (a b : Z) : Z := to_size_t (a - b).

(** ** The registry *)

(** One memory record, with the five members the code reads and writes. *)
Record mm2dev_t : Type := Build_mm2dev {
  host : bool;
  bytes : Z;
  h_adrs : Z;
  d_adrs : Z;
  ranged : bool
}.

(** [mm_t] maps a host address to its record. *)
Abbreviation mm_t := (gmap Z mm2dev_t).

(** Calls that leave the manager: the device context and the raw copy
    backend.  They are recorded in the order they are made. *)
Inductive call : Type :=
| config_Setup
| okMemAlloc (nbytes dptr : Z)
| okMemcpyHtoDAsync (dst src nbytes stream : Z)
| okMemcpyHtoD (dst src nbytes : Z)
| okMemcpyDtoH (dst src nbytes : Z).

(** What the manager finds around it.  None of these is decided by mm.cpp:
    the process environment, the device context, the allocator of the
    backend, and two things fixed by kernels/mm.hpp, which declares the
    record and the container: the value [operator[]] gives a new entry and
    the order in which an iterator visits the container. *)
Record platform : Type := {
  getenv_XS : bool;
  Cuda : bool;
  nvcc : bool;
  Stream : Z;
  okMemAlloc_ptr : list call → Z → Z;
  mm2dev_init : mm2dev_t;
  iteration : mm_t → list (Z * mm2dev_t)
}.

(** The iterator visits every entry of the container exactly once. *)
Definition iteration_ok (P : platform) : Prop :=
  ∀ m : mm_t, iteration P m ≡ₚ map_to_list m.

(** The singleton [mng], the two file statics, and the calls made so far. *)
Record state : Type := {
  mng : option mm_t;
  xs_shift : Z;
  xs_shifted : bool;
  trace : list call
}.

Definition initial : state :=
  {| mng := None; xs_shift := 0; xs_shifted := false; trace := [] |}.

(** ** Fatal outcomes and the monad of the operations *)

Inductive fatal : Type :=
| Trap              (* __builtin_trap() *)
| AssertionFailed   (* assert, MFEM_ASSERT *)
| MfemError         (* mfem_error *)
| NullManager.      (* mng dereferenced before Setup *)

Inductive result (A : Type) : Type :=
| Ok (a : A) (s : state)
| Fatal (f : fatal).
Arguments Ok {A} a s.
Arguments Fatal {A} f.

Definition M (A : Type) : Type := state → result A.

Definition ret {A} (a : A) : M A := λ s, Ok a s.
Definition bind {A B} (c : M A) (k : A → M B) : M B :=
  λ s, match c s with
       | Ok a s' => k a s'
       | Fatal f => Fatal f
       end.
Definition abort {A} (f : fatal) : M A := λ _, Fatal f.

Declare Scope mm_scope.
Delimit Scope mm_scope with mm.
Notation "x <~ c1 ;; c2" := (bind c1 (λ x, c2))
  (at level 100, c1 at next level, right associativity) : mm_scope.
Notation "c1 ;;; c2" := (bind c1 (λ _, c2))
  (at level 100, right associativity) : mm_scope.
Open Scope mm_scope.

(** The three ways a state changes. *)
Definition with_mng (m : mm_t) (s : state) : state :=
  {| mng := Some m; xs_shift := xs_shift s;
     xs_shifted := xs_shifted s; trace := trace s |}.
Definition with_xs (shifted : bool) (shift : Z) (s : state) : state :=
  {| mng := mng s; xs_shift := shift;
     xs_shifted := shifted; trace := trace s |}.
Definition with_call (c : call) (s : state) : state :=
  {| mng := mng s; xs_shift := xs_shift s;
     xs_shifted := xs_shifted s; trace := trace s ++ [c] |}.

Definition get : M state := λ s, Ok s s.
Definition get_mng : M mm_t :=
  λ s, match mng s with
       | Some m => Ok m s
       | None => Fatal NullManager
       end.
Definition put_mng (m : mm_t) : M unit := λ s, Ok tt (with_mng m s).
Definition put_xs (shifted : bool) (shift : Z) : M unit :=
  λ s, Ok tt (with_xs shifted shift s).
Definition external (c : call) : M unit := λ s, Ok tt (with_call c s).

(** [assert(c)] of the C library, compiled in: a false condition aborts. *)
Definition c_assert (c : bool) : M unit :=
  if c then ret tt else abort AssertionFailed.

(** Modelled from the spec: the macro [MFEM_ASSERT] of general/error.hpp,
    which is not part of the sources at hand.  The specification calls every
    failure it guards fatal, so a false condition aborts. *)
Definition MFEM_ASSERT (c : bool) : M unit :=
  if c then ret tt else abort AssertionFailed.

(** Modelled from the spec: [mfem_error] of general/error.cpp, which is not
    part of the sources at hand; the specification has the call fail
    fatally. *)
Definition mfem_error {A} : M A := abort MfemError.

Definition MFEM_SIGSEGV_FOR_STACK : M unit := abort Trap.

(** [mng->operator[](k)]: the record under [k], created first when absent. *)
Definition operator_index (P : platform) (k : Z) : M mm2dev_t :=
  m <~ get_mng ;;
  match m !! k with
  | Some r => ret r
  | None => put_mng (<[k := mm2dev_init P]> m) ;;; ret (mm2dev_init P)
  end.

(** A write through the reference [operator[]] returned. *)
Definition store (k : Z) (r : mm2dev_t) : M unit :=
  m <~ get_mng ;; put_mng (<[k := r]> m).

(** ** The operations of mm.cpp *)

(** [xsShift] takes the shifter's offset off an address. *)
Definition xsShift (adrs : Z) : M Z :=
  s <~ get ;;
  if negb (xs_shifted s) then ret adrs
  else ret (ptr_sub adrs (xs_shift s)).

Module mm.

(** [Setup] creates the registry, readies the device context and reads XS
    from the environment. *)
Definition Setup (P : platform) : M unit :=
  s <~ get ;;
  c_assert (bool_decide (mng s = None)) ;;;
  put_mng ∅ ;;;
  external config_Setup ;;;
  if getenv_XS P then put_xs true (Z.shiftl 1 48) else put_xs false (xs_shift s).

(** The loop of [Range] over the entries in iteration order. *)
Fixpoint Range_loop (entries : list (Z * mm2dev_t)) (adrs : Z) : Z :=
  match entries with
  | [] => NULL
  | address :: rest =>
      let h := h_adrs address.2 in
      if h >? adrs then Range_loop rest adrs
      else
        let nbytes := bytes address.2 in
        let end_ := ptr_add h nbytes in
        if adrs <=? end_ then h else Range_loop rest adrs
  end.

(** [Range] looks for a registered block around an address that is not
    registered itself. *)
Definition Range (P : platform) (adrs : Z) : M Z :=
  m <~ get_mng ;;
  let known := bool_decide (is_Some (m !! adrs)) in
  c_assert (negb known) ;;;
  ret (Range_loop (iteration P m) adrs).

(** The first four lines of [Known]: all of it when [insert_if_in_range]
    is false. *)
Definition Known_find (adrs : Z) : M bool :=
  m <~ get_mng ;;
  ret (bool_decide (is_Some (m !! adrs))).

(** Modelled from the spec: the default of the second argument of [Known],
    declared in kernels/mm.hpp, which is not part of the sources at hand.
    The specification has [Known(p)] look up without range insertion. *)
Definition insert_if_in_range_default : bool := false.

(** Modelled from the spec: the default of the last argument of [Insert],
    declared in kernels/mm.hpp, which is not part of the sources at hand.
    The specification has a plain registration enter an original block, not
    a ranged one. *)
Definition ranged_default : bool := false.

(** [Insert] adds an address on the host side.  It calls [Known(h_adrs)]
    with the default second argument, which is [Known_find]; the empty
    [if (size==0)] of the source does nothing. *)
Definition Insert (P : platform) (adrs size size_of_T : Z) (ranged0 : bool)
  : M Z :=
  s <~ get ;;
  (if bool_decide (mng s = None) then Setup P else ret tt) ;;;
  s <~ get ;;
  let h := ptr_add adrs (xs_shift s) in
  known <~ Known_find h ;;
  (if known
   then
     mm2dev <~ operator_index P h ;;
     if negb (ranged mm2dev)
     then MFEM_SIGSEGV_FOR_STACK ;;; MFEM_ASSERT false
     else MFEM_ASSERT false
   else ret tt) ;;;
  _mm2dev <~ operator_index P h ;;
  store h {| host := true; bytes := size_t_mul size size_of_T;
             h_adrs := h; d_adrs := NULL; ranged := ranged0 |} ;;;
  ret h.

(** [Known] looks an address up and, when asked to, registers it if it
    falls in the range of a registered block. *)
Definition Known (P : platform) (adrs : Z) (insert_if_in_range : bool)
  : M bool :=
  known <~ Known_find adrs ;;
  if known then ret true
  else if negb insert_if_in_range then ret false
  else
    base <~ Range P adrs ;;
    if base =? NULL then ret false
    else
      mm2dev <~ operator_index P base ;;
      let nbytes := bytes mm2dev in
      c_assert (0 <? nbytes) ;;;
      c_assert (base <? adrs) ;;;
      let offset := ptr_diff adrs base in
      Insert P adrs (size_t_sub nbytes offset) 1 ranged_default ;;;
      ret true.

(** [Erase] removes the address from the map. *)
Definition Erase (P : platform) (adrs : Z) : M Z :=
  known <~ Known P adrs insert_if_in_range_default ;;
  (if negb known then MFEM_SIGSEGV_FOR_STACK else ret tt) ;;;
  MFEM_ASSERT known ;;;
  m <~ get_mng ;;
  put_mng (delete adrs m) ;;;
  xsShift adrs.

(** [Adrs] gives the address to work with, on the host or on the device. *)
Definition Adrs (P : platform) (adrs : Z) : M Z :=
  let cuda := Cuda P in
  let insert_if_in_range := true in
  known <~ Known P adrs insert_if_in_range ;;
  (if negb known then MFEM_SIGSEGV_FOR_STACK else ret tt) ;;;
  MFEM_ASSERT known ;;;
  mm2dev <~ operator_index P adrs ;;
  if host mm2dev && negb cuda then xsShift (h_adrs mm2dev)
  else if d_adrs mm2dev =? NULL then
    (if negb (nvcc P) then mfem_error else ret tt) ;;;
    let nbytes := bytes mm2dev in
    d <~ (if 0 <? nbytes
          then s <~ get ;;
               let d := okMemAlloc_ptr P (trace s) nbytes in
               external (okMemAlloc nbytes d) ;;; ret d
          else ret (d_adrs mm2dev)) ;;
    external (okMemcpyHtoDAsync d (h_adrs mm2dev) nbytes (Stream P)) ;;;
    store adrs {| host := false; bytes := bytes mm2dev;
                  h_adrs := h_adrs mm2dev; d_adrs := d;
                  ranged := ranged mm2dev |} ;;;
    ret d
  else ret (d_adrs mm2dev).

(** [Push] copies a device-side record's bytes from the host to the
    device. *)
Definition Push (P : platform) (adrs : Z) : M unit :=
  known <~ Known P adrs insert_if_in_range_default ;;
  MFEM_ASSERT known ;;;
  mm2dev <~ operator_index P adrs ;;
  if host mm2dev then ret tt
  else external (okMemcpyHtoD (d_adrs mm2dev) (h_adrs mm2dev) (bytes mm2dev)).

(** [Pull] copies a device-side record's bytes from the device to the
    host. *)
Definition Pull (P : platform) (adrs : Z) : M unit :=
  known <~ Known P adrs insert_if_in_range_default ;;
  MFEM_ASSERT known ;;;
  mm2dev <~ operator_index P adrs ;;
  if host mm2dev then ret tt
  else external (okMemcpyDtoH (h_adrs mm2dev) (d_adrs mm2dev) (bytes mm2dev)).

End mm.

(** ** Vocabulary of the statements *)

(** The state [Insert] works on: it runs [Setup] first when there is no
    registry yet. *)
Definition after_Setup (P : platform) (s : state) : state :=
  (if getenv_XS P then with_xs true (Z.shiftl 1 48)
   else with_xs false (xs_shift s))
    (with_call config_Setup (with_mng ∅ s)).
Definition ready (P : platform) (s : state) : state :=
  match mng s with
  | Some _ => s
  | None => after_Setup P s
  end.

(** The key under which [Insert] files [adrs], and the record it writes. *)
Definition Insert_key (P : platform) (s : state) (adrs : Z) : Z :=
  ptr_add adrs (xs_shift (ready P s)).
Definition Insert_record (h size size_of_T : Z) (ranged0 : bool) : mm2dev_t :=
  {| host := true; bytes := size_t_mul size size_of_T;
     h_adrs := h; d_adrs := NULL; ranged := ranged0 |}.

(** An address that fits a pointer. *)
Definition is_address (p : Z) : Prop := 0 ≤ p < SIZE_MAX1.

(** Host-to-device copies among the calls made. *)
Definition is_HtoD (c : call) : bool :=
  match c with
  | okMemcpyHtoDAsync _ _ _ _ | okMemcpyHtoD _ _ _ => true
  | _ => false
  end.
Definition HtoD_copies (t : list call) : nat := length (filter is_HtoD t).

(** The record on file for an address, if any. *)
Definition entry (s : state) (p : Z) : option mm2dev_t :=
  match mng s with
  | Some m => m !! p
  | None => None
  end.

(** What [xsShift] returns in a state. *)
Definition unshifted (s : state) (adrs : Z) : Z :=
  if xs_shifted s then ptr_sub adrs (xs_shift s) else adrs.

(** [Adrs] brings a record to the device when it has no device address and
    the host shortcut does not apply. *)
Definition materialises (P : platform) (r : mm2dev_t) : bool :=
  negb (host r && negb (Cuda P)) && (d_adrs r =? NULL).

(** The device address a materialisation gives the record, the calls it
    makes, and the record afterwards. *)
Definition device_address (P : platform) (s : state) (r : mm2dev_t) : Z :=
  if 0 <? bytes r then okMemAlloc_ptr P (trace s) (bytes r) else d_adrs r.
Definition materialise_calls (P : platform) (s : state) (r : mm2dev_t)
  : list call :=
  (if 0 <? bytes r then [okMemAlloc (bytes r) (device_address P s r)] else [])
  ++ [okMemcpyHtoDAsync (device_address P s r) (h_adrs r) (bytes r) (Stream P)].
Definition materialised (r : mm2dev_t) (d : Z) : mm2dev_t :=
  {| host := false; bytes := bytes r; h_adrs := h_adrs r; d_adrs := d;
     ranged := ranged r |}.

(** The bytes of a block, [[h_adrs, h_adrs + bytes)]. *)
Definition in_byte_extent (r : mm2dev_t) (adrs : Z) : Prop :=
  h_adrs r ≤ adrs < h_adrs r + bytes r.

(** The test one round of the loop of [Range] makes. *)
Definition Range_accepts (r : mm2dev_t) (adrs : Z) : bool :=
  negb (h_adrs r >? adrs) && (adrs <=? ptr_add (h_adrs r) (bytes r)).

(** A record whose block, as [Range] measures it, lies inside the address
    space. *)
Definition block_ok (r : mm2dev_t) : Prop :=
  0 ≤ h_adrs r ∧ 0 ≤ bytes r ∧ h_adrs r + sizeof_size_t * bytes r < SIZE_MAX1.

(** The two settings of the debug address shifter. *)
Definition shifter_on (s : state) : Prop :=
  xs_shifted s = true ∧ xs_shift s = 2 ^ 48.
Definition shifter_off (s : state) : Prop :=
  xs_shifted s = false ∧ xs_shift s = 0.

(** The states a program gets to by calling the operations on addresses,
    one after the other, from the start of the process. *)
Inductive reachable (P : platform) : state → Prop :=
| reach_initial : reachable P initial
| reach_Setup s s' :
    reachable P s → mm.Setup P s = Ok tt s' → reachable P s'
| reach_Insert s a n sz rg q s' :
    reachable P s → is_address a →
    mm.Insert P a n sz rg s = Ok q s' → reachable P s'
| reach_Erase s a q s' :
    reachable P s → is_address a →
    mm.Erase P a s = Ok q s' → reachable P s'
| reach_Known s a b known s' :
    reachable P s → is_address a →
    mm.Known P a b s = Ok known s' → reachable P s'
| reach_Adrs s a q s' :
    reachable P s → is_address a →
    mm.Adrs P a s = Ok q s' → reachable P s'
| reach_Push s a s' :
    reachable P s → is_address a →
    mm.Push P a s = Ok tt s' → reachable P s'
| reach_Pull s a s' :
    reachable P s → is_address a →
    mm.Pull P a s = Ok tt s' → reachable P s'.

(** What holds of every record while the process runs without a device and
    without the shifter. *)
Definition host_only (s : state) : Prop :=
  shifter_off s ∧
  ∀ m k r, mng s = Some m → m !! k = Some r → host r = true ∧ h_adrs r = k.

(** The record of an address has a device mirror. *)
Definition has_mirror (s : state) (p : Z) : Prop :=
  ∃ r, entry s p = Some r ∧ d_adrs r ≠ NULL.

(** ** Sample platforms and states *)

Definition host_platform : platform :=
  {| getenv_XS := false; Cuda := false; nvcc := false; Stream := 0;
     okMemAlloc_ptr := λ _ _, 28672;
     mm2dev_init := Build_mm2dev false 0 NULL NULL false;
     iteration := map_to_list |}.

Definition device_platform : platform :=
  {| getenv_XS := false; Cuda := true; nvcc := true; Stream := 0;
     okMemAlloc_ptr := λ _ _, 28672;
     mm2dev_init := Build_mm2dev false 0 NULL NULL false;
     iteration := map_to_list |}.

Definition shifted_platform : platform :=
  {| getenv_XS := true; Cuda := false; nvcc := false; Stream := 0;
     okMemAlloc_ptr := λ _ _, 28672;
     mm2dev_init := Build_mm2dev false 0 NULL NULL false;
     iteration := map_to_list |}.

(** A block of sixteen bytes at address 4096, as [Insert(4096, 16, 1)]
    leaves it, alone in the registry. *)
Definition block16 : mm2dev_t := Insert_record 4096 16 1 false.
Definition one_block : state :=
  {| mng := Some {[ 4096 := block16 ]}; xs_shift := 0; xs_shifted := false;
     trace := [config_Setup] |}.

(** The registry of a process started with the shifter on, after
    [Insert(4096, 16, 1)]. *)
Definition shifted_block : state :=
  {| mng := Some {[ 4096 + 2 ^ 51 := Insert_record (4096 + 2 ^ 51) 16 1 false ]};
     xs_shift := 2 ^ 48; xs_shifted := true; trace := [config_Setup] |}.

(** ** The raw copies of mm.cpp *)

(** Calls the raw copies make: [std::memcpy] and the three kernels of the
    device layer. *)
Inductive copy_call : Type :=
| std_memcpy (dst src nbytes : Z)
| kH2D (dst src nbytes : Z) (async : bool)
| kD2H (dst src nbytes : Z) (async : bool)
| kD2D (dst src nbytes : Z) (async : bool).

(** What the kernels return is decided outside mm.cpp. *)
Record kernels : Type := {
  kH2D_result : Z → Z → Z → bool → Z;
  kD2H_result : Z → Z → Z → bool → Z;
  kD2D_result : Z → Z → Z → bool → Z
}.

(** A raw copy touches neither the registry nor the statics; it gives back
    an address and the calls it made. *)
Definition mm_H2D (P : platform) (K : kernels) (dest src nbytes : Z)
    (async : bool) : Z * list copy_call :=
  if nbytes =? 0 then (dest, [])
  else
    let cuda := Cuda P in
    if negb cuda then (dest, [std_memcpy dest src nbytes])
    else (kH2D_result K dest src nbytes async, [kH2D dest src nbytes async]).

Definition mm_D2H (P : platform) (K : kernels) (dest src nbytes : Z)
    (async : bool) : Z * list copy_call :=
  if nbytes =? 0 then (dest, [])
  else
    let cuda := Cuda P in
    if negb cuda then (dest, [std_memcpy dest src nbytes])
    else (kD2H_result K dest src nbytes async, [kD2H dest src nbytes async]).

Definition mm_D2D (P : platform) (K : kernels) (dest src nbytes : Z)
    (async : bool) : Z * list copy_call :=
  if nbytes =? 0 then (dest, [])
  else
    let cuda := Cuda P in
    if negb cuda then (dest, [std_memcpy dest src nbytes])
    else (kD2D_result K dest src nbytes async, [kD2D dest src nbytes async]).

Definition mm_memcpy (P : platform) (K : kernels) (dest src nbytes : Z)
  : Z * list copy_call :=
  mm_D2D P K dest src nbytes false.

Definition sample_kernels : kernels :=
  {| kH2D_result := λ dest _ _ _, dest;
     kD2H_result := λ dest _ _ _, dest;
     kD2D_result := λ dest _ _ _, dest |}.

(** ** Vocabulary of the further statements *)

Definition is_Setup (c : call) : bool :=
  match c with
  | config_Setup => true
  | _ => false
  end.
Definition Setup_calls (t : list call) : nat := length (filter is_Setup t).

(** From [s] to [s']: the statics stand, calls were added but none to the
    device context's [Setup], there is a registry, and every record on file
    in [s] is on file in [s'] as it was or with a device address filled in
    and its host flag off. *)
Definition grows (s s' : state) : Prop :=
  xs_shift s' = xs_shift s ∧ xs_shifted s' = xs_shifted s ∧
  (∃ t, trace s' = trace s ++ t ∧ Forall (λ c, is_Setup c = false) t) ∧
  is_Some (mng s') ∧
  ∀ k r, entry s k = Some r →
         entry s' k = Some r ∨ ∃ d, entry s' k = Some (materialised r d).

(** The extent [Range] scans for a block: from its host address to eight
    times its byte count further, both ends included. *)
Definition in_scanned_extent (r : mm2dev_t) (adrs : Z) : Prop :=
  h_adrs r ≤ adrs ≤ h_adrs r + sizeof_size_t * bytes r.

(** What holds of every record with the shifter off: it is filed under its
    host address, and while it is host-side it has no device address. *)
Definition tidy (s : state) : Prop :=
  shifter_off s ∧
  ∀ m k r, mng s = Some m → m !! k = Some r →
           h_adrs r = k ∧ (host r = true → d_adrs r = NULL).

(** What the process has settled once and for all: nothing before the first
    [Setup]; after it, one call to the [Setup] of the device context, and
    the shifter on or off as XS was found in the environment. *)
Definition settled (P : platform) (s : state) : Prop :=
  match mng s with
  | None => s = initial
  | Some _ =>
      (if getenv_XS P then shifter_on s else shifter_off s) ∧
      Setup_calls (trace s) = 1%nat
  end.

(** A device-side block of sixteen bytes at 4096 with its mirror at 28672. *)
Definition mirrored_block : state :=
  {| mng := Some {[ 4096 := materialised block16 28672 ]};
     xs_shift := 0; xs_shifted := false;
     trace := [config_Setup; okMemAlloc 16 28672;
               okMemcpyHtoDAsync 28672 4096 16 0] |}.

(** A block of no bytes at 4096, as [Insert(4096, 0, 8)] leaves it. *)
Definition zero_block : state :=
  {| mng := Some {[ 4096 := Insert_record 4096 0 8 false ]};
     xs_shift := 0; xs_shifted := false; trace := [config_Setup] |}.

(** A platform with device execution on but no device support built in. *)
Definition no_nvcc_platform : platform :=
  {| getenv_XS := false; Cuda := true; nvcc := false; Stream := 0;
     okMemAlloc_ptr := λ _ _, 28672;
     mm2dev_init := Build_mm2dev false 0 NULL NULL false;
     iteration := map_to_list |}.

(** ** Basic facts about the operations *)

Ltac mm_unfold :=
  unfold mm.Erase, mm.Adrs, mm.Push, mm.Pull, mm.Known, mm.Insert, mm.Range,
    mm.Setup, mm.Known_find, xsShift, operator_index, store,
    MFEM_SIGSEGV_FOR_STACK, MFEM_ASSERT, mfem_error, c_assert,
    put_mng, put_xs, external, get_mng, get, abort, bind, ret.

Lemma Known_find_eq (s : state) (m : mm_t) (adrs : Z) :
  mng s = Some m →
  mm.Known_find adrs s = Ok (bool_decide (is_Some (m !! adrs))) s.
Proof. intros Hm. mm_unfold. by rewrite Hm. Qed.

Lemma Known_default (P : platform) (adrs : Z) (s : state) :
  mm.Known P adrs false s = mm.Known_find adrs s.
Proof.
  unfold mm.Known, bind. destruct (mm.Known_find adrs s) as [[] s'|f] eqn:E; try done.
  all: revert E; mm_unfold; destruct (mng s); naive_solver.
Qed.

Lemma Known_registered (P : platform) (s : state) (m : mm_t) (adrs : Z)
    (r : mm2dev_t) (b : bool) :
  mng s = Some m → m !! adrs = Some r → mm.Known P adrs b s = Ok true s.
Proof.
  intros Hm Hr. unfold mm.Known, bind. rewrite (Known_find_eq s m) by done.
  rewrite bool_decide_eq_true_2; eauto.
Qed.

Lemma Known_unregistered (P : platform) (s : state) (m : mm_t) (adrs : Z) :
  mng s = Some m → m !! adrs = None → mm.Known P adrs false s = Ok false s.
Proof.
  intros Hm Hr. rewrite Known_default, (Known_find_eq s m) by done.
  rewrite bool_decide_eq_false_2; [done|]. rewrite Hr. by intros [? ?].
Qed.

Lemma operator_index_present (P : platform) (s : state) (m : mm_t) (k : Z)
    (r : mm2dev_t) :
  mng s = Some m → m !! k = Some r → operator_index P k s = Ok r s.
Proof. intros Hm Hr. mm_unfold. by rewrite Hm, Hr. Qed.

Lemma Known_query (P : platform) (s : state)
    (m : mm_t) (adrs : Z) :
  mng s = Some m →
  mm.Known P adrs false s = Ok (bool_decide (is_Some (m !! adrs))) s.
Proof. intros Hm. rewrite Known_default. by apply Known_find_eq. Qed.

(** ** Known without range insertion *)

(** C10.  [Known(address, false)] is a query: it returns whether [address]
    is a key of the registry and hands back the very state it was given, so
    the registry maps the same addresses to the same records afterwards,
    wherever the address lies. *)
Theorem Known_without_insertion_is_pure (P : platform) (s : state) (m : mm_t)
    (adrs : Z) :
  mng s = Some m →
  mm.Known P adrs false s = Ok (bool_decide (is_Some (m !! adrs))) s.
Proof. apply Known_query. Qed.

(** ** Insert and Erase *)

Lemma ready_mng (P : platform) (s : state) : is_Some (mng (ready P s)).
Proof.
  unfold ready, after_Setup. destruct (mng s) eqn:E; [by rewrite E|].
  destruct (getenv_XS P); simpl; eauto.
Qed.

Lemma ready_ready (P : platform) (s : state) (m : mm_t) :
  mng s = Some m → ready P s = s.
Proof. intros Hm. unfold ready. by rewrite Hm. Qed.

Lemma bind_Ok {A B} (c : M A) (k : A → M B) (s s' : state) (a : A) :
  c s = Ok a s' → bind c k s = k a s'.
Proof. intros H. unfold bind. by rewrite H. Qed.

Lemma bind_Fatal {A B} (c : M A) (k : A → M B) (s : state) (f : fatal) :
  c s = Fatal f → bind c k s = Fatal f.
Proof. intros H. unfold bind. by rewrite H. Qed.

Lemma Setup_uninitialised (P : platform) (s : state) :
  mng s = None → mm.Setup P s = Ok tt (after_Setup P s).
Proof.
  intros E. unfold mm.Setup, after_Setup. mm_unfold. rewrite E. simpl.
  by destruct (getenv_XS P).
Qed.

Lemma Insert_prologue (P : platform) (s : state) :
  bind get (λ s0, if bool_decide (mng s0 = None) then mm.Setup P else ret tt) s
  = Ok tt (ready P s).
Proof.
  unfold bind at 1, get, ready. destruct (mng s) as [m|] eqn:E.
  - by rewrite bool_decide_eq_false_2 by done.
  - rewrite bool_decide_eq_true_2 by done. by apply Setup_uninitialised.
Qed.

Lemma Insert_unfold (P : platform) (s : state) (adrs size size_of_T : Z)
    (ranged0 : bool) :
  mm.Insert P adrs size size_of_T ranged0 s =
  (let h := Insert_key P s adrs in
   known <~ mm.Known_find h ;;
   (if known
    then
      mm2dev <~ operator_index P h ;;
      if negb (ranged mm2dev)
      then MFEM_SIGSEGV_FOR_STACK ;;; MFEM_ASSERT false
      else MFEM_ASSERT false
    else ret tt) ;;;
   _mm2dev <~ operator_index P h ;;
   store h (Insert_record h size size_of_T ranged0) ;;;
   ret h) (ready P s).
Proof.
  unfold mm.Insert. pose proof (Insert_prologue P s) as H.
  unfold bind at 1 2. unfold bind at 1 in H.
  change (get s) with (Ok s s) in *. cbv beta iota in *.
  rewrite H. reflexivity.
Qed.

Lemma Insert_fresh (P : platform) (s : state) (m0 : mm_t)
    (adrs size size_of_T : Z) (ranged0 : bool) :
  mng (ready P s) = Some m0 →
  m0 !! Insert_key P s adrs = None →
  mm.Insert P adrs size size_of_T ranged0 s =
    Ok (Insert_key P s adrs)
       (with_mng (<[Insert_key P s adrs :=
                     Insert_record (Insert_key P s adrs) size size_of_T ranged0]> m0)
                 (ready P s)).
Proof.
  intros Hm Hk. rewrite Insert_unfold. cbv zeta.
  generalize dependent (Insert_key P s adrs). intros h Hk.
  generalize dependent (ready P s). intros s0 Hm.
  rewrite (bind_Ok _ _ _ _ _ (Known_find_eq s0 m0 h Hm)).
  rewrite bool_decide_eq_false_2 by (rewrite Hk; by intros [? ?]).
  mm_unfold. rewrite Hm, Hk. simpl. unfold with_mng. simpl.
  by rewrite insert_insert_eq.
Qed.

Lemma Insert_present (P : platform) (s : state) (m0 : mm_t)
    (adrs size size_of_T : Z) (ranged0 : bool) (r : mm2dev_t) :
  mng (ready P s) = Some m0 →
  m0 !! Insert_key P s adrs = Some r →
  mm.Insert P adrs size size_of_T ranged0 s =
    Fatal (if ranged r then AssertionFailed else Trap).
Proof.
  intros Hm Hk. rewrite Insert_unfold. cbv zeta.
  generalize dependent (Insert_key P s adrs). intros h Hk.
  generalize dependent (ready P s). intros s0 Hm.
  rewrite (bind_Ok _ _ _ _ _ (Known_find_eq s0 m0 h Hm)).
  rewrite bool_decide_eq_true_2 by eauto.
  mm_unfold. rewrite Hm, Hk. by destruct (ranged r).
Qed.

Lemma to_size_t_id (z : Z) : is_address z → to_size_t z = z.
Proof. unfold is_address, to_size_t. intros H. by apply Z.mod_small. Qed.

Lemma Insert_key_off (P : platform) (s : state) (m : mm_t) (p : Z) :
  mng s = Some m → shifter_off s → is_address p → Insert_key P s p = p.
Proof.
  intros Hm [_ Hx] Hp. unfold Insert_key. rewrite (ready_ready P s m) by done.
  unfold ptr_add. rewrite Hx, Z.mul_0_r, Z.add_0_r. by apply to_size_t_id.
Qed.

Lemma Insert_Ok_inv (P : platform) (s s' : state) (adrs size size_of_T q : Z)
    (ranged0 : bool) :
  mm.Insert P adrs size size_of_T ranged0 s = Ok q s' →
  ∃ m0, mng (ready P s) = Some m0 ∧ m0 !! Insert_key P s adrs = None ∧
        q = Insert_key P s adrs ∧
        s' = with_mng (<[q := Insert_record q size size_of_T ranged0]> m0)
                      (ready P s).
Proof.
  intros H. destruct (ready_mng P s) as [m0 Hm]. exists m0.
  destruct (m0 !! Insert_key P s adrs) as [r|] eqn:Hk.
  - rewrite (Insert_present P s m0 _ _ _ _ r) in H by done. discriminate.
  - rewrite (Insert_fresh P s m0) in H by done. by simplify_eq.
Qed.

Lemma Erase_unregistered (P : platform) (s : state) (m : mm_t) (adrs : Z) :
  mng s = Some m → m !! adrs = None → mm.Erase P adrs s = Fatal Trap.
Proof.
  intros Hm Hk. unfold mm.Erase, mm.insert_if_in_range_default.
  by rewrite (bind_Ok _ _ _ _ _ (Known_unregistered P s m adrs Hm Hk)).
Qed.

Lemma Erase_registered (P : platform) (s : state) (m : mm_t) (adrs : Z)
    (r : mm2dev_t) :
  mng s = Some m → m !! adrs = Some r →
  mm.Erase P adrs s =
    Ok (if xs_shifted s then ptr_sub adrs (xs_shift s) else adrs)
       (with_mng (delete adrs m) s).
Proof.
  intros Hm Hk. unfold mm.Erase.
  rewrite (bind_Ok _ _ _ _ _ (Known_registered P s m adrs r _ Hm Hk)).
  mm_unfold. simpl. rewrite Hm. simpl. by destruct (xs_shifted s).
Qed.

(** C7.  [Erase] of an address that has no entry traps.  [Insert] traps
    when the key it gives the address holds a record not marked ranged: with
    the shifter off that key is the address itself, and in every setting a
    second [Insert] of an address just registered traps.  A trap is fatal:
    there is no value and no state to go on from. *)
Theorem Erase_unknown_Insert_duplicate_fatal (P : platform) (s : state) :
  (∀ m p, mng s = Some m → m !! p = None → mm.Erase P p s = Fatal Trap) ∧
  (∀ m p r n sz rg,
     mng (ready P s) = Some m → m !! Insert_key P s p = Some r →
     ranged r = false →
     mm.Insert P p n sz rg s = Fatal Trap) ∧
  (∀ m p r n sz rg,
     mng s = Some m → shifter_off s → is_address p →
     m !! p = Some r → ranged r = false →
     mm.Insert P p n sz rg s = Fatal Trap) ∧
  (∀ p n sz q s',
     mm.Insert P p n sz mm.ranged_default s = Ok q s' →
     ∀ n' sz' rg', mm.Insert P p n' sz' rg' s' = Fatal Trap).
Proof.
  split; [|split; [|split]].
  - intros m p Hm Hp. by eapply Erase_unregistered.
  - intros m p r n sz rg Hm Hk Hr.
    rewrite (Insert_present P s m _ _ _ _ r) by done. by rewrite Hr.
  - intros m p r n sz rg Hm Hoff Hp Hk Hr.
    rewrite (Insert_present P s m _ _ _ _ r).
    + by rewrite Hr.
    + by rewrite (ready_ready P s m).
    + by rewrite (Insert_key_off P s m p Hm Hoff Hp).
  - intros p n sz q s' (m0 & Hm0 & Hk & -> & ->)%Insert_Ok_inv n' sz' rg'.
    set (k := Insert_key P s p).
    set (m' := <[k := Insert_record k n sz mm.ranged_default]> m0).
    assert (Hr : ready P (with_mng m' (ready P s)) = with_mng m' (ready P s))
      by reflexivity.
    assert (Hk' : Insert_key P (with_mng m' (ready P s)) p = k)
      by (unfold Insert_key; by rewrite Hr).
    rewrite (Insert_present P (with_mng m' (ready P s)) m' _ _ _ _
               (Insert_record k n sz mm.ranged_default)); try done.
    rewrite Hk'. unfold m'. by rewrite lookup_insert_eq.
Qed.

(** ** Push and Pull *)

Lemma Push_registered (P : platform) (s : state) (m : mm_t) (adrs : Z)
    (r : mm2dev_t) :
  mng s = Some m → m !! adrs = Some r →
  mm.Push P adrs s =
    Ok tt (if host r then s
           else with_call (okMemcpyHtoD (d_adrs r) (h_adrs r) (bytes r)) s).
Proof.
  intros Hm Hk. unfold mm.Push.
  rewrite (bind_Ok _ _ _ _ _ (Known_registered P s m adrs r _ Hm Hk)).
  unfold MFEM_ASSERT. unfold bind at 1, ret at 1.
  rewrite (bind_Ok _ _ _ _ _ (operator_index_present P s m adrs r Hm Hk)).
  by destruct (host r).
Qed.

Lemma Pull_registered (P : platform) (s : state) (m : mm_t) (adrs : Z)
    (r : mm2dev_t) :
  mng s = Some m → m !! adrs = Some r →
  mm.Pull P adrs s =
    Ok tt (if host r then s
           else with_call (okMemcpyDtoH (h_adrs r) (d_adrs r) (bytes r)) s).
Proof.
  intros Hm Hk. unfold mm.Pull.
  rewrite (bind_Ok _ _ _ _ _ (Known_registered P s m adrs r _ Hm Hk)).
  unfold MFEM_ASSERT. unfold bind at 1, ret at 1.
  rewrite (bind_Ok _ _ _ _ _ (operator_index_present P s m adrs r Hm Hk)).
  by destruct (host r).
Qed.

(** C8.  [Push] of a registered address whose record is host-side makes no
    call at all and leaves the state as it is; when the record is
    device-side it makes one call, a host-to-device copy of the record's
    byte count; [Push] of an address without an entry is fatal. *)
Theorem Push_copies (P : platform) (s : state) (m : mm_t) :
  mng s = Some m →
  (∀ p r, m !! p = Some r → host r = true → mm.Push P p s = Ok tt s) ∧
  (∀ p r, m !! p = Some r → host r = false →
     ∃ s', mm.Push P p s = Ok tt s' ∧ mng s' = mng s ∧
           trace s' = trace s ++ [okMemcpyHtoD (d_adrs r) (h_adrs r) (bytes r)]) ∧
  (∀ p, m !! p = None → mm.Push P p s = Fatal AssertionFailed).
Proof.
  intros Hm. split; [|split].
  - intros p r Hk Hh. rewrite (Push_registered P s m p r) by done. by rewrite Hh.
  - intros p r Hk Hh. rewrite (Push_registered P s m p r) by done. rewrite Hh.
    by eexists.
  - intros p Hk. unfold mm.Push.
    by rewrite (bind_Ok _ _ _ _ _ (Known_unregistered P s m p Hm Hk)).
Qed.

Lemma Push_copies_witness :
  mng one_block = Some {[ 4096 := block16 ]} ∧
  mm.Push host_platform 4096 one_block = Ok tt one_block.
Proof.
  split; [reflexivity|].
  apply (proj1 (Push_copies host_platform one_block {[ 4096 := block16 ]}
                  eq_refl) 4096 block16); reflexivity.
Defined.

Lemma Erase_unknown_Insert_duplicate_fatal_witness :
  mng one_block = Some {[ 4096 := block16 ]} ∧
  mm.Erase host_platform 8192 one_block = Fatal Trap.
Proof.
  split; [reflexivity|].
  apply (proj1 (Erase_unknown_Insert_duplicate_fatal host_platform one_block)
           {[ 4096 := block16 ]} 8192); reflexivity.
Defined.

Lemma Known_without_insertion_is_pure_witness :
  mng one_block = Some {[ 4096 := block16 ]} ∧
  mm.Known host_platform 4100 false one_block = Ok false one_block.
Proof.
  split; [reflexivity|].
  apply (Known_without_insertion_is_pure host_platform one_block
           {[ 4096 := block16 ]} 4100 eq_refl).
Defined.

(** ** Insert followed by Known *)



(** C6, amended.  After [Insert(p, n, s)] of a fresh address, [Known] holds of
    the address [Insert] returned, and the record filed there has
    [n * s] bytes ([size_t] product).  The address returned is [p] moved by
    the shifter's offset: [p] itself when the shifter is off. *)
Theorem Insert_then_Known (P : platform) (s : state) (m0 : mm_t)
    (p n sz : Z) (rg : bool) :
  mng (ready P s) = Some m0 →
  m0 !! Insert_key P s p = None →
  ∃ s' m',
    mm.Insert P p n sz rg s = Ok (Insert_key P s p) s' ∧
    mm.Known P (Insert_key P s p) mm.insert_if_in_range_default s' = Ok true s' ∧
    mng s' = Some m' ∧
    bytes <$> m' !! Insert_key P s p = Some (size_t_mul n sz) ∧
    (0 ≤ n * sz < SIZE_MAX1 → size_t_mul n sz = n * sz) ∧
    (xs_shift (ready P s) = 0 → is_address p → Insert_key P s p = p).
Proof.
  intros Hm Hk. eexists _, _. split; [by apply Insert_fresh|].
  split; [|split; [reflexivity|split; [|split]]].
  - eapply Known_registered; [reflexivity|]. apply lookup_insert_eq.
  - by rewrite lookup_insert_eq.
  - intros H. by apply Z.mod_small.
  - intros Hx Hp. unfold Insert_key, ptr_add. rewrite Hx, Z.mul_0_r, Z.add_0_r.
    by apply to_size_t_id.
Qed.

Lemma Insert_then_Known_witness :
  ∃ s' m',
    mm.Insert host_platform 4096 100 8 false initial = Ok 4096 s' ∧
    mm.Known host_platform 4096 false s' = Ok true s' ∧
    mng s' = Some m' ∧
    bytes <$> m' !! 4096 = Some 800.
Proof.
  destruct (Insert_then_Known host_platform initial ∅ 4096 100 8 false
              eq_refl eq_refl) as (s' & m' & H1 & H2 & H3 & H4 & _).
  exists s', m'. auto.
Defined.

(** Against C6 as written: with the shifter on, [Insert(4096, 100, 8)] files
    the block under [4096 + 2^51], and [Known(4096)] is false right after. *)
Lemma shifted_Insert_hides_address :
  match mm.Insert shifted_platform 4096 100 8 false initial with
  | Ok q s' =>
      q = 4096 + 2 ^ 51 ∧
      mm.Known shifted_platform q false s' = Ok true s' ∧
      mm.Known shifted_platform 4096 false s' = Ok false s'
  | Fatal _ => False
  end.
Proof. vm_compute. auto. Qed.

(** ** Adrs on a registered address *)

Lemma Adrs_registered (P : platform) (s : state) (m : mm_t) (p : Z)
    (r : mm2dev_t) :
  mng s = Some m → m !! p = Some r →
  mm.Adrs P p s =
    if host r && negb (Cuda P) then Ok (unshifted s (h_adrs r)) s
    else if d_adrs r =? NULL then
      if negb (nvcc P) then Fatal MfemError
      else Ok (device_address P s r)
              {| mng := Some (<[p := materialised r (device_address P s r)]> m);
                 xs_shift := xs_shift s; xs_shifted := xs_shifted s;
                 trace := trace s ++ materialise_calls P s r |}
    else Ok (d_adrs r) s.
Proof.
  intros Hm Hk. unfold mm.Adrs. cbv zeta.
  rewrite (bind_Ok _ _ _ _ _ (Known_registered P s m p r _ Hm Hk)).
  unfold MFEM_ASSERT. cbn [negb]. unfold bind at 1 2, ret at 1 2.
  rewrite (bind_Ok _ _ _ _ _ (operator_index_present P s m p r Hm Hk)).
  destruct (host r && negb (Cuda P)).
  { unfold xsShift, unshifted, bind, get, ret. by destruct (xs_shifted s). }
  destruct (d_adrs r =? NULL); [|done].
  destruct (nvcc P); [|done]. cbn [negb].
  unfold device_address, materialise_calls, device_address.
  mm_unfold. simpl. destruct (0 <? bytes r); simpl; rewrite Hm; simpl.
  - unfold with_mng, with_call. simpl. by rewrite <- app_assoc.
  - done.
Qed.

Lemma HtoD_copies_app (t u : list call) :
  HtoD_copies (t ++ u) = (HtoD_copies t + HtoD_copies u)%nat.
Proof. unfold HtoD_copies. by rewrite filter_app, length_app. Qed.

Lemma HtoD_copies_materialise (P : platform) (s : state) (r : mm2dev_t) :
  HtoD_copies (materialise_calls P s r) = 1%nat.
Proof. unfold materialise_calls. by destruct (0 <? bytes r). Qed.

(** C2.  In device mode, let a first [Adrs(p)] bring the record of a
    registered address to the device: it had no mirror before the call and
    has one after.  Then a second [Adrs(p)] right after returns the same
    device address and gives back the state as it was, so the two calls
    together made exactly one host-to-device copy. *)
Theorem Adrs_twice (P : platform) (s s1 : state) (m : mm_t) (p d1 : Z)
    (r : mm2dev_t) :
  Cuda P = true →
  mng s = Some m → m !! p = Some r →
  ¬ has_mirror s p →
  mm.Adrs P p s = Ok d1 s1 →
  has_mirror s1 p →
  mm.Adrs P p s1 = Ok d1 s1 ∧
  HtoD_copies (trace s1) = S (HtoD_copies (trace s)).
Proof.
  intros Hc Hm Hk Hno H1 (r1 & Hr1 & Hd1).
  assert (Hd : d_adrs r = NULL).
  { destruct (decide (d_adrs r = NULL)) as [|Hne]; [done|].
    exfalso. apply Hno. exists r. unfold entry. by rewrite Hm. }
  rewrite (Adrs_registered P s m p r Hm Hk), Hc, andb_false_r, Hd in H1.
  cbn [Z.eqb NULL] in H1. destruct (nvcc P); [|discriminate].
  cbn [negb] in H1. injection H1 as <- <-.
  unfold entry in Hr1. cbn [mng] in Hr1. rewrite lookup_insert_eq in Hr1.
  injection Hr1 as <-. cbn [materialised d_adrs] in Hd1. split.
  - erewrite Adrs_registered; [|reflexivity|apply lookup_insert_eq].
    cbn [host materialised d_adrs andb].
    by rewrite (proj2 (Z.eqb_neq _ _) Hd1).
  - cbn [trace]. rewrite HtoD_copies_app, HtoD_copies_materialise. lia.
Qed.

Lemma Adrs_twice_witness :
  ¬ has_mirror one_block 4096 ∧
  mm.Adrs device_platform 4096 one_block =
    Ok 28672
       {| mng := Some {[ 4096 := materialised block16 28672 ]};
          xs_shift := 0; xs_shifted := false;
          trace := [config_Setup; okMemAlloc 16 28672;
                    okMemcpyHtoDAsync 28672 4096 16 0] |} ∧
  mm.Adrs device_platform 4096
    {| mng := Some {[ 4096 := materialised block16 28672 ]};
       xs_shift := 0; xs_shifted := false;
       trace := [config_Setup; okMemAlloc 16 28672;
                 okMemcpyHtoDAsync 28672 4096 16 0] |} =
    Ok 28672
       {| mng := Some {[ 4096 := materialised block16 28672 ]};
          xs_shift := 0; xs_shifted := false;
          trace := [config_Setup; okMemAlloc 16 28672;
                    okMemcpyHtoDAsync 28672 4096 16 0] |}.
Proof.
  assert (H0 : ¬ has_mirror one_block 4096).
  { intros (r & Hr & Hd). vm_compute in Hr. injection Hr as <-.
    by apply Hd. }
  assert (H1 : mm.Adrs device_platform 4096 one_block =
    Ok 28672
       {| mng := Some {[ 4096 := materialised block16 28672 ]};
          xs_shift := 0; xs_shifted := false;
          trace := [config_Setup; okMemAlloc 16 28672;
                    okMemcpyHtoDAsync 28672 4096 16 0] |})
    by (vm_compute; reflexivity).
  split; [exact H0|]. split; [exact H1|].
  refine (proj1 (Adrs_twice device_platform one_block _ {[ 4096 := block16 ]}
                   4096 28672 block16 eq_refl eq_refl eq_refl H0 H1 _)).
  exists (materialised block16 28672). split; [vm_compute; reflexivity|].
  discriminate.
Defined.

(** A record of no bytes never gets a device address, so every [Adrs] of it
    in device mode issues the (empty) copy again. *)
Lemma Adrs_zero_bytes_copies_again (P : platform) (s : state) (m : mm_t)
    (p : Z) (r : mm2dev_t) :
  Cuda P = true → nvcc P = true →
  mng s = Some m → m !! p = Some r → d_adrs r = NULL → bytes r = 0 →
  ∃ s1 s2, mm.Adrs P p s = Ok NULL s1 ∧ mm.Adrs P p s1 = Ok NULL s2 ∧
           HtoD_copies (trace s2) = S (S (HtoD_copies (trace s))).
Proof.
  intros Hc Hn Hm Hk Hd Hb. eexists _, _.
  rewrite (Adrs_registered P s m p r Hm Hk), Hc, Hn, andb_false_r, Hd.
  cbn [Z.eqb NULL negb]. unfold device_address. rewrite Hb, Hd. cbn [Z.ltb Z.compare].
  split; [reflexivity|].
  erewrite Adrs_registered; [|reflexivity|apply lookup_insert_eq].
  rewrite Hc, Hn. cbn [host materialised d_adrs andb Z.eqb NULL negb].
  unfold device_address at 1. cbn [bytes materialised d_adrs].
  rewrite Hb. cbn [Z.ltb Z.compare].
  split; [reflexivity|]. cbn [trace].
  rewrite !HtoD_copies_app, !HtoD_copies_materialise. lia.
Qed.

(** ** Which operation changes the host flag *)

(** Against C3 as written: in device mode [Adrs] turns the host flag of a
    fresh record off. *)
Lemma Adrs_sets_device_side :
  entry one_block 4096 = Some block16 ∧ host block16 = true ∧
  match mm.Adrs device_platform 4096 one_block with
  | Ok _ s' => host <$> entry s' 4096 = Some false
  | Fatal _ => False
  end.
Proof. vm_compute. auto. Qed.

(** C3, amended.  [Push] and [Pull] of a registered address leave the whole
    registry as it is, host flags included.  [Adrs] of a registered address
    turns the host flag of that record off exactly when it brings the record
    to the device, which it does when the record has no device address and
    the host shortcut does not apply; otherwise it leaves the flag as it is.
    The records of other addresses are not touched. *)
Theorem host_flag_changes_only_in_Adrs (P : platform) (s : state) (m : mm_t)
    (p : Z) (r : mm2dev_t) :
  mng s = Some m → m !! p = Some r →
  (∃ s', mm.Push P p s = Ok tt s' ∧ mng s' = mng s) ∧
  (∃ s', mm.Pull P p s = Ok tt s' ∧ mng s' = mng s) ∧
  match mm.Adrs P p s with
  | Ok _ s' =>
      (∃ r', entry s' p = Some r' ∧
             host r' = if materialises P r then false else host r) ∧
      (∀ q, q ≠ p → entry s' q = entry s q)
  | Fatal _ => materialises P r = true ∧ nvcc P = false
  end.
Proof.
  intros Hm Hk. split; [|split].
  - rewrite (Push_registered P s m p r Hm Hk). eexists. split; [done|].
    by destruct (host r).
  - rewrite (Pull_registered P s m p r Hm Hk). eexists. split; [done|].
    by destruct (host r).
  - rewrite (Adrs_registered P s m p r Hm Hk). unfold materialises, entry.
    destruct (host r && negb (Cuda P)) eqn:Hh; cbn [negb andb].
    { rewrite Hm. eauto. }
    destruct (d_adrs r =? NULL).
    + destruct (nvcc P); cbn [negb mng]; [|done]. rewrite Hm. split.
      * eexists. by rewrite lookup_insert_eq.
      * intros q Hq. by rewrite lookup_insert_ne.
    + rewrite Hm. eauto.
Qed.

Lemma host_flag_changes_only_in_Adrs_witness :
  mng one_block = Some {[ 4096 := block16 ]} ∧
  (∃ s', mm.Push device_platform 4096 one_block = Ok tt s' ∧
         mng s' = mng one_block).
Proof.
  split; [reflexivity|].
  exact (proj1 (host_flag_changes_only_in_Adrs device_platform one_block
                  {[ 4096 := block16 ]} 4096 block16 eq_refl eq_refl)).
Defined.

(** ** Range *)

Lemma Range_loop_first (l : list (Z * mm2dev_t)) (adrs : Z) :
  (∃ l1 e l2, l = l1 ++ e :: l2 ∧
              Forall (λ e', Range_accepts e'.2 adrs = false) l1 ∧
              Range_accepts e.2 adrs = true ∧
              mm.Range_loop l adrs = h_adrs e.2) ∨
  (Forall (λ e', Range_accepts e'.2 adrs = false) l ∧
   mm.Range_loop l adrs = NULL).
Proof.
  induction l as [|e l IH]; [right; by split|].
  destruct (Range_accepts e.2 adrs) eqn:Ha.
  - left. exists [], e, l. repeat split; [by constructor|done|].
    unfold Range_accepts in Ha. apply andb_true_iff in Ha as [H1 H2].
    cbn [mm.Range_loop]. apply negb_true_iff in H1. by rewrite H1, H2.
  - assert (Hstep : mm.Range_loop (e :: l) adrs = mm.Range_loop l adrs).
    { unfold Range_accepts in Ha. cbn [mm.Range_loop].
      destruct (h_adrs e.2 >? adrs); [done|]. cbn [negb andb] in Ha.
      by rewrite Ha. }
    rewrite Hstep. destruct IH as [(l1 & e' & l2 & -> & Hl1 & He' & Hr)|[Hl Hr]].
    + left. exists (e :: l1), e', l2. repeat split; try done.
      by constructor.
    + right. split; [by constructor|done].
Qed.

Lemma byte_extent_accepted (r : mm2dev_t) (adrs : Z) :
  block_ok r → in_byte_extent r adrs → Range_accepts r adrs = true.
Proof.
  unfold block_ok, in_byte_extent, Range_accepts, ptr_add, to_size_t,
    sizeof_size_t, SIZE_MAX1.
  intros (H0 & Hb & Hend) [H1 H2].
  rewrite Z.mod_small by lia. apply andb_true_iff. split.
  - apply negb_true_iff. lia.
  - lia.
Qed.

Lemma accepted_base_below (r : mm2dev_t) (adrs : Z) :
  Range_accepts r adrs = true → h_adrs r ≤ adrs.
Proof.
  unfold Range_accepts. intros [H _]%andb_true_iff.
  apply negb_true_iff in H. lia.
Qed.

Lemma Range_unregistered (P : platform) (s : state) (m : mm_t) (adrs : Z) :
  mng s = Some m → m !! adrs = None →
  mm.Range P adrs s = Ok (mm.Range_loop (iteration P m) adrs) s.
Proof.
  intros Hm Hk. mm_unfold. rewrite Hm. simpl.
  rewrite bool_decide_eq_false_2; [done|]. rewrite Hk. by intros [? ?].
Qed.

Lemma Range_registered (P : platform) (s : state) (m : mm_t) (adrs : Z) :
  mng s = Some m → is_Some (m !! adrs) →
  mm.Range P adrs s = Fatal AssertionFailed.
Proof.
  intros Hm Hk. mm_unfold. rewrite Hm. simpl.
  by rewrite bool_decide_eq_true_2.
Qed.

Lemma iteration_lookup (P : platform) (m : mm_t) (e : Z * mm2dev_t) :
  iteration_ok P → e ∈ iteration P m ↔ m !! e.1 = Some e.2.
Proof.
  intros HP. rewrite (HP m). destruct e as [k r]. apply elem_of_map_to_list.
Qed.

(** The block at 4096 has sixteen bytes, and [Range] gives its base for the
    address one past its last byte, and for an address eight times as far. *)
Lemma Range_beyond_the_bytes :
  bytes block16 = 16 ∧
  mm.Range host_platform (4096 + 16) one_block = Ok 4096 one_block ∧
  mm.Range host_platform (4096 + 128) one_block = Ok 4096 one_block ∧
  mm.Range host_platform (4096 + 129) one_block = Ok NULL one_block.
Proof. vm_compute. auto. Qed.

(** Against C5 as written: [Range] of an address that is itself registered
    stops at its assertion, although the block at that address holds it. *)
Lemma Range_of_registered_base :
  entry one_block 4096 = Some block16 ∧ in_byte_extent block16 4096 ∧
  mm.Range host_platform 4096 one_block = Fatal AssertionFailed.
Proof. vm_compute. repeat split; intros; discriminate. Qed.

(** C5, amended.  [Range] is for a probe address that is not itself
    registered and stops at its assertion otherwise.  For such a probe it
    leaves the state alone and returns either the host address of a
    registered block that starts at or below the probe, and then no block the
    iterator visits earlier has the probe among its bytes; or null, and then
    no registered block has the probe among its bytes. *)
Theorem Range_first_enclosing (P : platform) (s : state) (m : mm_t)
    (probe : Z) :
  iteration_ok P → mng s = Some m →
  (is_Some (m !! probe) → mm.Range P probe s = Fatal AssertionFailed) ∧
  (m !! probe = None →
   (∀ k r, m !! k = Some r → block_ok r) →
   ∃ a, mm.Range P probe s = Ok a s ∧
        ((∃ l1 e l2, iteration P m = l1 ++ e :: l2 ∧
                     m !! e.1 = Some e.2 ∧
                     a = h_adrs e.2 ∧ h_adrs e.2 ≤ probe ∧
                     Forall (λ e', ¬ in_byte_extent e'.2 probe) l1) ∨
         (a = NULL ∧ ∀ k r, m !! k = Some r → ¬ in_byte_extent r probe))).
Proof.
  intros HP Hm. split; [by apply Range_registered|].
  intros Hk Hok. eexists. split; [by apply Range_unregistered|].
  assert (Hrej : ∀ l, l ⊆ iteration P m →
            Forall (λ e', Range_accepts e'.2 probe = false) l →
            Forall (λ e', ¬ in_byte_extent e'.2 probe) l).
  { intros l Hsub Hl. apply Forall_forall. intros e He Hin.
    rewrite Forall_forall in Hl. specialize (Hl e He).
    assert (Hb : block_ok e.2).
    { apply (Hok e.1). apply (iteration_lookup P m e HP). by apply Hsub. }
    by rewrite (byte_extent_accepted _ _ Hb Hin) in Hl. }
  destruct (Range_loop_first (iteration P m) probe)
    as [(l1 & e & l2 & Hl & Hl1 & He & Hr)|[Hl Hr]].
  - left. exists l1, e, l2. split; [done|]. split.
    { apply (iteration_lookup P m e HP). rewrite Hl. set_solver. }
    split; [done|]. split; [by apply accepted_base_below|].
    apply Hrej; [|done]. rewrite Hl. set_solver.
  - right. split; [done|]. intros k r Hkr.
    specialize (Hrej _ (reflexivity _) Hl). rewrite Forall_forall in Hrej.
    apply (Hrej (k, r)). by apply (iteration_lookup P m (k, r) HP).
Qed.

Lemma Range_first_enclosing_witness :
  iteration_ok host_platform ∧
  ∃ a, mm.Range host_platform 4100 one_block = Ok a one_block ∧
       ((∃ l1 e l2,
           iteration host_platform {[ 4096 := block16 ]} = l1 ++ e :: l2 ∧
           ({[ 4096 := block16 ]} : mm_t) !! e.1 = Some e.2 ∧
           a = h_adrs e.2 ∧ h_adrs e.2 ≤ 4100 ∧
           Forall (λ e', ¬ in_byte_extent e'.2 4100) l1) ∨
        (a = NULL ∧
         ∀ k r, ({[ 4096 := block16 ]} : mm_t) !! k = Some r →
                ¬ in_byte_extent r 4100)).
Proof.
  assert (H : iteration_ok host_platform) by (intros m; reflexivity).
  split; [exact H|].
  apply (proj2 (Range_first_enclosing host_platform one_block
                  {[ 4096 := block16 ]} 4100 H eq_refl)).
  - vm_compute. reflexivity.
  - intros k r [_ <-]%lookup_singleton_Some. vm_compute.
    repeat split; discriminate.
Defined.

(** ** Known with range insertion *)

Lemma Range_loop_skip (l1 l2 : list (Z * mm2dev_t)) (adrs : Z) :
  Forall (λ e, Range_accepts e.2 adrs = false) l1 →
  mm.Range_loop (l1 ++ l2) adrs = mm.Range_loop l2 adrs.
Proof.
  induction 1 as [|e l1 He _ IH]; [done|].
  cbn [app mm.Range_loop]. unfold Range_accepts in He.
  destruct (h_adrs e.2 >? adrs); [done|]. cbn [negb andb] in He.
  by rewrite He.
Qed.

Lemma Range_loop_head (e : Z * mm2dev_t) (l : list (Z * mm2dev_t)) (adrs : Z) :
  Range_accepts e.2 adrs = true → mm.Range_loop (e :: l) adrs = h_adrs e.2.
Proof.
  unfold Range_accepts. intros [H1 H2]%andb_true_iff.
  apply negb_true_iff in H1. cbn [mm.Range_loop]. by rewrite H1, H2.
Qed.

Lemma Known_range_insert (P : platform) (s : state) (m : mm_t)
    (adrs base : Z) (rb : mm2dev_t) :
  mng s = Some m → m !! adrs = None →
  mm.Range_loop (iteration P m) adrs = base → base ≠ NULL →
  m !! base = Some rb → 0 < bytes rb → base < adrs →
  m !! Insert_key P s adrs = None →
  mm.Known P adrs true s =
    Ok true
       (with_mng
          (<[Insert_key P s adrs :=
               Insert_record (Insert_key P s adrs)
                 (size_t_sub (bytes rb) (ptr_diff adrs base)) 1
                 mm.ranged_default]> m) s).
Proof.
  intros Hm Hk Hr Hb Hrb Hn Hlt Hfresh. unfold mm.Known.
  rewrite (bind_Ok _ _ _ _ _ (Known_find_eq s m adrs Hm)).
  rewrite bool_decide_eq_false_2 by (rewrite Hk; by intros [? ?]).
  cbn [negb]. rewrite (bind_Ok _ _ _ _ _ (Range_unregistered P s m adrs Hm Hk)).
  rewrite Hr, (proj2 (Z.eqb_neq _ _) Hb).
  rewrite (bind_Ok _ _ _ _ _ (operator_index_present P s m base rb Hm Hrb)).
  rewrite (proj2 (Z.ltb_lt _ _) Hn), (proj2 (Z.ltb_lt _ _) Hlt).
  unfold c_assert. unfold bind at 1 2, ret at 1 2.
  assert (Hready : mng (ready P s) = Some m) by by rewrite (ready_ready P s m).
  rewrite (bind_Ok _ _ _ _ _
             (Insert_fresh P s m adrs _ 1 mm.ranged_default Hready Hfresh)).
  by rewrite (ready_ready P s m).
Qed.

(** Against C1 as written, at offset 0: [Known(4096 + 0, true)] on a block
    registered at 4096 answers from the exact match and registers nothing,
    and [Range(4096 + 0)] does not return 4096 but stops at its assertion. *)
Lemma Known_at_base_registers_nothing :
  entry one_block 4096 = Some block16 ∧ bytes block16 = 16 ∧
  mm.Known host_platform (4096 + 0) true one_block = Ok true one_block ∧
  mm.Range host_platform (4096 + 0) one_block = Fatal AssertionFailed.
Proof. vm_compute. auto. Qed.

(** The count [Known] hands to [Insert] is the block's byte count less the
    distance in eight-byte words: eight bytes into a block of sixteen it
    registers fifteen. *)
Lemma words_counted_inside_block :
  match mm.Known host_platform (4096 + 8) true one_block with
  | Ok known s' => known = true ∧ bytes <$> entry s' (4096 + 8) = Some 15
  | Fatal _ => False
  end.
Proof. vm_compute. auto. Qed.

(** C1, amended.  Let [b] be registered with [n] bytes, and let [0 < k < n]
    with [b + k] not registered itself.  When the block of [b] is the first
    in iteration order that the test of [Range] accepts for [b + k], then
    [Range(b + k)] returns [b], and [Known(b + k, true)] returns true and
    adds one record to the registry, under the key [Insert] gives [b + k]
    (which is [b + k] with the shifter off): a host-side record of that
    address without a device address.  Nothing is said here of its size.
    At [b] itself [Known] answers from the exact match and leaves the
    registry alone, and [Range] stops at its assertion. *)
Theorem Known_inside_block (P : platform) (s : state) (m : mm_t) (b k : Z)
    (rb : mm2dev_t) (l1 l2 : list (Z * mm2dev_t)) :
  mng s = Some m →
  m !! b = Some rb → h_adrs rb = b → 0 < b →
  0 < k < bytes rb →
  b + sizeof_size_t * bytes rb < SIZE_MAX1 →
  m !! (b + k) = None →
  m !! Insert_key P s (b + k) = None →
  iteration P m = l1 ++ (b, rb) :: l2 →
  Forall (λ e, Range_accepts e.2 (b + k) = false) l1 →
  (mm.Range P (b + k) s = Ok b s ∧
   ∃ r', mm.Known P (b + k) true s =
           Ok true (with_mng (<[Insert_key P s (b + k) := r']> m) s) ∧
         h_adrs r' = Insert_key P s (b + k) ∧
         host r' = true ∧ d_adrs r' = NULL ∧
         (xs_shift s = 0 → Insert_key P s (b + k) = b + k)) ∧
  (mm.Known P b true s = Ok true s ∧
   mm.Range P b s = Fatal AssertionFailed).
Proof.
  intros Hm Hb Hh Hpos Hk Hend Hfree Hfresh Hit Hl1.
  split; [|split; [by eapply Known_registered|by eapply Range_registered]].
  assert (Hacc : Range_accepts rb (b + k) = true).
  { apply byte_extent_accepted.
    - unfold block_ok. rewrite Hh. lia.
    - unfold in_byte_extent. rewrite Hh. lia. }
  assert (Hloop : mm.Range_loop (iteration P m) (b + k) = b).
  { rewrite Hit, (Range_loop_skip _ _ _ Hl1).
    rewrite (Range_loop_head (b, rb)) by done. done. }
  split.
  { rewrite (Range_unregistered P s m) by done. by rewrite Hloop. }
  eexists. split.
  { apply (Known_range_insert P s m (b + k) b rb); try done; unfold NULL; lia. }
  cbn [Insert_record h_adrs host d_adrs]. repeat split.
  intros Hx. unfold Insert_key. rewrite (ready_ready P s m) by done.
  unfold ptr_add. rewrite Hx, Z.mul_0_r, Z.add_0_r. apply to_size_t_id.
  unfold is_address, sizeof_size_t in *. lia.
Qed.

Lemma Known_inside_block_witness :
  mm.Range host_platform (4096 + 8) one_block = Ok 4096 one_block ∧
  ∃ r', mm.Known host_platform (4096 + 8) true one_block =
          Ok true (with_mng (<[4104 := r']> {[ 4096 := block16 ]}) one_block) ∧
        h_adrs r' = 4104 ∧ host r' = true ∧ d_adrs r' = NULL.
Proof.
  assert (H : mm.Range host_platform (4096 + 8) one_block = Ok 4096 one_block ∧
    ∃ r', mm.Known host_platform (4096 + 8) true one_block =
            Ok true (with_mng (<[Insert_key host_platform one_block (4096 + 8)
                                  := r']> {[ 4096 := block16 ]}) one_block) ∧
          h_adrs r' = Insert_key host_platform one_block (4096 + 8) ∧
          host r' = true ∧ d_adrs r' = NULL ∧
          (xs_shift one_block = 0 →
           Insert_key host_platform one_block (4096 + 8) = 4096 + 8)).
  { apply (λ h1 h2 h3 h4 h5 h6 h7 h8 h9 h10,
             proj1 (Known_inside_block host_platform one_block
                      {[ 4096 := block16 ]} 4096 8 block16 [] []
                      h1 h2 h3 h4 h5 h6 h7 h8 h9 h10)).
    - reflexivity.
    - vm_compute; reflexivity.
    - vm_compute; reflexivity.
    - vm_compute; reflexivity.
    - vm_compute; split; reflexivity.
    - vm_compute; reflexivity.
    - vm_compute; reflexivity.
    - vm_compute; reflexivity.
    - vm_compute; reflexivity.
    - constructor. }
  destruct H as [HR (r' & HK & H1 & H2 & H3 & _)].
  split; [exact HR|]. exists r'.
  change (Insert_key host_platform one_block (4096 + 8)) with 4104 in *.
  auto.
Defined.

(** ** The debug address shifter *)

Lemma shifted_block_by_Insert :
  mm.Insert shifted_platform 4096 16 1 false initial
  = Ok (4096 + 2 ^ 51) shifted_block.
Proof. vm_compute. reflexivity. Qed.

(** Against C9 as written: with the shifter on, [Erase] does not move the
    address it is given before it uses it as the key: it removes the entry filed under that very
    address, and nothing is filed under the address moved by the offset.
    What it returns is the address with the offset taken off. *)
Lemma Erase_key_is_not_offset :
  shifter_on shifted_block ∧
  is_Some (entry shifted_block (4096 + 2 ^ 51)) ∧
  entry shifted_block (ptr_add (4096 + 2 ^ 51) (xs_shift shifted_block)) = None ∧
  mm.Erase shifted_platform (4096 + 2 ^ 51) shifted_block
  = Ok 4096 (with_mng ∅ shifted_block).
Proof. vm_compute. repeat split; eauto. Qed.

Lemma shifter_after_Setup (P : platform) (s : state) :
  xs_shift s = 0 →
  if getenv_XS P then shifter_on (after_Setup P s)
  else shifter_off (after_Setup P s).
Proof.
  intros Hx. unfold after_Setup, shifter_on, shifter_off.
  destruct (getenv_XS P); by cbn.
Qed.

Lemma Insert_key_on (P : platform) (s : state) (m : mm_t) (p : Z) :
  mng s = Some m → shifter_on s → 0 ≤ p → p + 2 ^ 51 < SIZE_MAX1 →
  Insert_key P s p = p + 2 ^ 51.
Proof.
  intros Hm [_ Hx] H0 H1. unfold Insert_key. rewrite (ready_ready P s m) by done.
  unfold ptr_add, sizeof_size_t. rewrite Hx. apply to_size_t_id.
  unfold is_address. lia.
Qed.

Lemma unshifted_on (s : state) (a : Z) :
  shifter_on s → 2 ^ 51 ≤ a < SIZE_MAX1 → unshifted s a = a - 2 ^ 51.
Proof.
  intros [Hs Hx] Ha. unfold unshifted, ptr_sub, sizeof_size_t. rewrite Hs, Hx.
  apply to_size_t_id. unfold is_address, SIZE_MAX1 in *. lia.
Qed.


Lemma unshifted_off (s : state) (a : Z) : shifter_off s → unshifted s a = a.
Proof. intros [Hs _]. unfold unshifted. by rewrite Hs. Qed.

(** C9, amended.  [Setup] turns the shifter on when XS is set in the
    environment and leaves it off otherwise.  With the shifter on, [Insert]
    moves the address it is given up by one fixed power of two, [2^48] words
    of eight bytes, which is [2^51] bytes, and that moved address is the key
    it files the record under and the address it returns.  [Known],
    [Erase] and [Adrs] take the address they are given as the key, as it
    stands; [Erase] returns it, and [Adrs] without a device returns the
    record's host address, moved down by the same constant.  With the
    shifter off, both moves are the identity. *)
Theorem shifter_transform (P : platform) (s : state) (m : mm_t) :
  mng s = Some m →
  (∀ s0, xs_shift s0 = 0 →
     if getenv_XS P then shifter_on (after_Setup P s0)
     else shifter_off (after_Setup P s0)) ∧
  (shifter_on s →
     sizeof_size_t * xs_shift s = 2 ^ 51 ∧
     (∀ p, 0 ≤ p → p + 2 ^ 51 < SIZE_MAX1 → Insert_key P s p = p + 2 ^ 51) ∧
     (∀ a, 2 ^ 51 ≤ a < SIZE_MAX1 → unshifted s a = a - 2 ^ 51)) ∧
  (shifter_off s →
     ∀ p, is_address p → Insert_key P s p = p ∧ unshifted s p = p) ∧
  (∀ p n sz rg, m !! Insert_key P s p = None →
     ∃ s', mm.Insert P p n sz rg s = Ok (Insert_key P s p) s' ∧
           is_Some (entry s' (Insert_key P s p))) ∧
  (∀ a, mm.Known P a mm.insert_if_in_range_default s
        = Ok (bool_decide (is_Some (m !! a))) s) ∧
  (∀ a r, m !! a = Some r →
     mm.Erase P a s = Ok (unshifted s a) (with_mng (delete a m) s)) ∧
  (∀ a r, m !! a = Some r → host r = true → Cuda P = false →
     mm.Adrs P a s = Ok (unshifted s (h_adrs r)) s).
Proof.
  intros Hm. split; [|split; [|split; [|split; [|split; [|split]]]]];
    [| | | |intros a; by apply Known_query|..].
  - intros s0. apply shifter_after_Setup.
  - intros Hon. split; [|split].
    + destruct Hon as [_ ->]. reflexivity.
    + intros p. by apply (Insert_key_on P s m).
    + intros a. by apply unshifted_on.
  - intros Hoff p Hp. split; [by apply (Insert_key_off P s m)|by apply unshifted_off].
  - intros p n sz rg Hk. eexists. split.
    + apply (Insert_fresh P s m); [by rewrite (ready_ready P s m)|done].
    + unfold entry. cbn. rewrite lookup_insert_eq. eauto.
  - intros a r Hk. by apply (Erase_registered P s m a r).
  - intros a r Hk Hh Hc. rewrite (Adrs_registered P s m a r Hm Hk), Hh, Hc. done.
Qed.

Lemma shifter_transform_witness :
  mng shifted_block = Some {[ 4096 + 2 ^ 51 := Insert_record (4096 + 2 ^ 51) 16 1 false ]} ∧
  shifter_on shifted_block ∧
  Insert_key shifted_platform shifted_block 8192 = 8192 + 2 ^ 51.
Proof.
  split; [reflexivity|]. split; [by split|].
  apply (proj1 (proj2 (proj1 (proj2 (shifter_transform shifted_platform
           shifted_block _ eq_refl)) (conj eq_refl eq_refl)))); 
    unfold SIZE_MAX1; lia.
Defined.

(** ** Adrs without a device *)

(** Against C4 as written: with the shifter on and no device, [Adrs] of the
    registered address [4096 + 2^51] does not return that address but
    4096, the address the caller first gave to [Insert]. *)
Lemma shifted_Adrs_returns_host_address :
  Cuda shifted_platform = false ∧
  is_Some (entry shifted_block (4096 + 2 ^ 51)) ∧
  mm.Adrs shifted_platform (4096 + 2 ^ 51) shifted_block = Ok 4096 shifted_block.
Proof. vm_compute. repeat split; eauto. Qed.

Lemma host_only_initial : host_only initial.
Proof. split; [by split|]. intros m k r Hm. discriminate. Qed.

Lemma host_only_ready (P : platform) (s : state) :
  getenv_XS P = false → host_only s → host_only (ready P s).
Proof.
  intros HX Hinv. unfold ready. destruct (mng s) eqn:Hm; [done|].
  destruct Hinv as [[Hs Hx] Hr].
  unfold after_Setup. rewrite HX. split; [by split|].
  intros m k r Hm'. cbn in Hm'. simplify_eq. by rewrite lookup_empty.
Qed.

Lemma host_only_insert (s : state) (m : mm_t) (k : Z) (r : mm2dev_t) :
  host_only s → mng s = Some m → host r = true → h_adrs r = k →
  host_only (with_mng (<[k := r]> m) s).
Proof.
  intros [Hoff Hr] Hm Hh Hk. split; [done|].
  intros m' k' r' Hm' Hk'. cbn in Hm'. simplify_eq.
  destruct (decide (k' = h_adrs r)) as [->|Hne].
  - rewrite lookup_insert_eq in Hk'. by simplify_eq.
  - rewrite lookup_insert_ne in Hk' by done. by eapply Hr.
Qed.

Lemma host_only_delete (s : state) (m : mm_t) (k : Z) :
  host_only s → mng s = Some m → host_only (with_mng (delete k m) s).
Proof.
  intros [Hoff Hr] Hm. split; [done|].
  intros m' k' r' Hm' Hk'. cbn in Hm'. simplify_eq.
  apply lookup_delete_Some in Hk' as [_ Hk']. by eapply Hr.
Qed.

Lemma host_only_with_call (s : state) (c : call) :
  host_only s → host_only (with_call c s).
Proof. by intros [Hoff Hr]. Qed.

Lemma Insert_host_only (P : platform) (s s' : state) (a n sz q : Z)
    (rg : bool) :
  getenv_XS P = false → host_only s →
  mm.Insert P a n sz rg s = Ok q s' → host_only s'.
Proof.
  intros HX Hinv (m0 & Hm0 & _ & _ & ->)%Insert_Ok_inv.
  apply host_only_insert; [by apply host_only_ready|done..].
Qed.

Lemma Known_range_host_only (P : platform) (s s' : state) (a : Z)
    (known : bool) :
  iteration_ok P → getenv_XS P = false → host_only s → is_address a →
  mm.Known P a true s = Ok known s' →
  host_only s' ∧ (known = true → is_Some (entry s' a)).
Proof.
  intros HP HX Hinv Ha H. unfold mm.Known in H.
  destruct (mng s) as [m|] eqn:Hm.
  2: { unfold mm.Known_find, bind, get_mng in H. by rewrite Hm in H. }
  rewrite (bind_Ok _ _ _ _ _ (Known_find_eq s m a Hm)) in H.
  destruct (bool_decide (is_Some (m !! a))) eqn:Hk.
  { unfold ret in H. simplify_eq. split; [done|]. intros _.
    unfold entry. rewrite Hm. by apply bool_decide_eq_true in Hk. }
  apply bool_decide_eq_false in Hk.
  assert (Hnone : m !! a = None).
  { destruct (m !! a); [exfalso; eauto|done]. }
  cbn [negb] in H.
  rewrite (bind_Ok _ _ _ _ _ (Range_unregistered P s m a Hm Hnone)) in H.
  destruct (Range_loop_first (iteration P m) a)
    as [(l1 & e & l2 & Hl & _ & Hacc & Hr)|[_ Hr]]; rewrite Hr in H.
  2: { unfold ret in H. cbn in H. by simplify_eq. }
  destruct (h_adrs e.2 =? NULL); [unfold ret in H; by simplify_eq|].
  assert (He : m !! e.1 = Some e.2).
  { apply (iteration_lookup P m e HP). rewrite Hl. set_solver. }
  assert (Hbase : h_adrs e.2 = e.1) by (by eapply (proj2 Hinv)).
  rewrite Hbase in H.
  rewrite (bind_Ok _ _ _ _ _ (operator_index_present P s m _ _ Hm He)) in H.
  destruct (0 <? bytes e.2); [|done].
  destruct (e.1 <? a); [|done].
  unfold c_assert in H. unfold bind at 1 2, ret at 1 2 in H.
  destruct (mm.Insert P a (size_t_sub (bytes e.2) (ptr_diff a e.1)) 1
              mm.ranged_default s) as [q s2|f] eqn:HI.
  2: { by rewrite (bind_Fatal _ _ _ _ HI) in H. }
  rewrite (bind_Ok _ _ _ _ _ HI) in H. unfold ret in H. simplify_eq.
  split; [by eapply Insert_host_only|]. intros _.
  apply Insert_Ok_inv in HI as (m0 & Hm0 & _ & Hq & ->).
  rewrite (Insert_key_off P s m a Hm (proj1 Hinv) Ha) in Hq. subst q.
  unfold entry. cbn. rewrite lookup_insert_eq. eauto.
Qed.

Lemma Adrs_host_only (P : platform) (s s' : state) (a q : Z) :
  iteration_ok P → getenv_XS P = false → Cuda P = false →
  host_only s → is_address a →
  mm.Adrs P a s = Ok q s' → host_only s' ∧ q = a.
Proof.
  intros HP HX Hc Hinv Ha H. unfold mm.Adrs in H. cbv zeta in H.
  destruct (mm.Known P a true s) as [known s1|f] eqn:HK.
  2: { by rewrite (bind_Fatal _ _ _ _ HK) in H. }
  rewrite (bind_Ok _ _ _ _ _ HK) in H.
  destruct (Known_range_host_only P s s1 a known HP HX Hinv Ha HK)
    as [Hinv1 Hreg].
  destruct known; [|done]. destruct (Hreg eq_refl) as [r Hr].
  unfold entry in Hr. destruct (mng s1) as [m1|] eqn:Hm1; [|done].
  unfold MFEM_ASSERT in H. cbn [negb] in H. unfold bind at 1 2, ret at 1 2 in H.
  rewrite (bind_Ok _ _ _ _ _ (operator_index_present P s1 m1 a r Hm1 Hr)) in H.
  destruct (proj2 Hinv1 m1 a r Hm1 Hr) as [Hh Hbase].
  rewrite Hh, Hc, Hbase in H. cbn [negb andb] in H.
  unfold xsShift, bind, get, ret in H.
  rewrite (proj1 (proj1 Hinv1)) in H. cbn [negb] in H. by simplify_eq.
Qed.

Lemma reachable_host_only (P : platform) (s : state) :
  iteration_ok P → getenv_XS P = false → Cuda P = false →
  reachable P s → host_only s.
Proof.
  intros HP HX Hc. induction 1 as
    [ | s s' _ IH H | s a n sz rg q s' _ IH Ha H | s a q s' _ IH Ha H
    | s a b known s' _ IH Ha H | s a q s' _ IH Ha H
    | s a s' _ IH Ha H | s a s' _ IH Ha H ].
  - apply host_only_initial.
  - destruct (mng s) eqn:Hm.
    + unfold mm.Setup, bind, get, c_assert in H. rewrite Hm in H.
      by rewrite bool_decide_eq_false_2 in H.
    + rewrite (Setup_uninitialised P s Hm) in H. simplify_eq.
      pose proof (host_only_ready P s HX IH) as Hr. unfold ready in Hr.
      by rewrite Hm in Hr.
  - by eapply Insert_host_only.
  - destruct (mng s) as [m|] eqn:Hm.
    2: { unfold mm.Erase, mm.Known, mm.Known_find, bind, get_mng in H.
         by rewrite Hm in H. }
    destruct (m !! a) as [r|] eqn:Hk.
    + rewrite (Erase_registered P s m a r Hm Hk) in H. simplify_eq.
      by apply host_only_delete.
    + by rewrite (Erase_unregistered P s m a Hm Hk) in H.
  - destruct b.
    + by eapply Known_range_host_only.
    + destruct (mng s) as [m|] eqn:Hm.
      * rewrite (Known_query P s m a Hm) in H.
        by simplify_eq.
      * unfold mm.Known, mm.Known_find, bind, get_mng in H.
        by rewrite Hm in H.
  - by eapply Adrs_host_only.
  - destruct (mng s) as [m|] eqn:Hm.
    2: { unfold mm.Push, mm.Known, mm.Known_find, bind, get_mng in H.
         by rewrite Hm in H. }
    destruct (m !! a) as [r|] eqn:Hk.
    + rewrite (Push_registered P s m a r Hm Hk) in H. simplify_eq.
      destruct (host r); [done|by apply host_only_with_call].
    + unfold mm.Push in H.
      by rewrite (bind_Ok _ _ _ _ _ (Known_unregistered P s m a Hm Hk)) in H.
  - destruct (mng s) as [m|] eqn:Hm.
    2: { unfold mm.Pull, mm.Known, mm.Known_find, bind, get_mng in H.
         by rewrite Hm in H. }
    destruct (m !! a) as [r|] eqn:Hk.
    + rewrite (Pull_registered P s m a r Hm Hk) in H. simplify_eq.
      destruct (host r); [done|by apply host_only_with_call].
    + unfold mm.Pull in H.
      by rewrite (bind_Ok _ _ _ _ _ (Known_unregistered P s m a Hm Hk)) in H.
Qed.

(** C4, amended.  With device execution disabled, [Adrs] of a registered
    address whose record is host-side returns the record's host address with
    the shifter's offset taken off, and gives back the state as it was: no
    record gets a device address and no call leaves the manager.  With the
    shifter off as well, in every state the operations can bring about,
    every registered record is of that kind and [Adrs] returns the very
    address it was given. *)
Theorem Adrs_host_mode (P : platform) (s : state) (m : mm_t) (p : Z) :
  Cuda P = false → mng s = Some m →
  (∀ r, m !! p = Some r → host r = true →
        mm.Adrs P p s = Ok (unshifted s (h_adrs r)) s) ∧
  (iteration_ok P → getenv_XS P = false → reachable P s →
   is_Some (m !! p) → mm.Adrs P p s = Ok p s).
Proof.
  intros Hc Hm. split.
  - intros r Hr Hh. by rewrite (Adrs_registered P s m p r Hm Hr), Hh, Hc.
  - intros HP HX Hreach [r Hr].
    destruct (reachable_host_only P s HP HX Hc Hreach) as [[Hs _] Hrec].
    destruct (Hrec m p r Hm Hr) as [Hh Hbase].
    rewrite (Adrs_registered P s m p r Hm Hr), Hh, Hc, Hbase. cbn [negb andb].
    unfold unshifted. by rewrite Hs.
Qed.

Lemma Adrs_host_mode_witness :
  reachable host_platform one_block ∧
  mm.Adrs host_platform 4096 one_block = Ok 4096 one_block.
Proof.
  assert (Hreach : reachable host_platform one_block).
  { apply (reach_Insert host_platform initial 4096 16 1 false 4096 one_block).
    - constructor.
    - unfold is_address, SIZE_MAX1. lia.
    - vm_compute. reflexivity. }
  split; [exact Hreach|].
  apply (proj2 (Adrs_host_mode host_platform one_block {[ 4096 := block16 ]}
                  4096 eq_refl eq_refl)).
  - intros m. reflexivity.
  - reflexivity.
  - exact Hreach.
  - exists block16. vm_compute. reflexivity.
Defined.

(** ** A run through the life of a buffer *)

(** In device mode: [Insert(4096, 100, 8)] registers 800 bytes and [Known]
    holds; the first [Adrs] allocates 800 device bytes and copies 800 bytes
    to the device; the second returns the same device address and makes no
    call; [Pull] copies 800 bytes back; [Erase] removes the record and
    [Known] no longer holds. *)
Example life_of_a_buffer :
  (p <~ mm.Insert device_platform 4096 100 8 false ;;
   k1 <~ mm.Known device_platform p false ;;
   d1 <~ mm.Adrs device_platform p ;;
   d2 <~ mm.Adrs device_platform p ;;
   mm.Pull device_platform p ;;;
   mm.Erase device_platform p ;;;
   k2 <~ mm.Known device_platform p false ;;
   ret (p, k1, d1, d2, k2)) initial
  = Ok (4096, true, 28672, 28672, false)
       {| mng := Some ∅; xs_shift := 0; xs_shifted := false;
          trace := [config_Setup; okMemAlloc 800 28672;
                    okMemcpyHtoDAsync 28672 4096 800 0;
                    okMemcpyDtoH 4096 28672 800] |}.
Proof. vm_compute. reflexivity. Qed.

(** ** Pull, and what Erase leaves behind *)

(** X1.  [Pull] of a registered address whose record is host-side makes no
    call and leaves the state as it is; when the record is device-side it
    makes one call, a device-to-host copy of the record's byte count from its
    device address to its host address, and changes nothing else; [Pull] of
    an address without an entry is fatal. *)
Theorem Pull_copies (P : platform) (s : state) (m : mm_t) :
  mng s = Some m →
  (∀ p r, m !! p = Some r → host r = true → mm.Pull P p s = Ok tt s) ∧
  (∀ p r, m !! p = Some r → host r = false →
     ∃ s', mm.Pull P p s = Ok tt s' ∧ mng s' = mng s ∧
           xs_shift s' = xs_shift s ∧ xs_shifted s' = xs_shifted s ∧
           trace s' = trace s ++ [okMemcpyDtoH (h_adrs r) (d_adrs r) (bytes r)]) ∧
  (∀ p, m !! p = None → mm.Pull P p s = Fatal AssertionFailed).
Proof.
  intros Hm. split; [|split].
  - intros p r Hk Hh. rewrite (Pull_registered P s m p r) by done. by rewrite Hh.
  - intros p r Hk Hh. rewrite (Pull_registered P s m p r) by done. rewrite Hh.
    by eexists.
  - intros p Hk. unfold mm.Pull.
    by rewrite (bind_Ok _ _ _ _ _ (Known_unregistered P s m p Hm Hk)).
Qed.

Lemma Pull_copies_witness :
  mng mirrored_block = Some {[ 4096 := materialised block16 28672 ]} ∧
  ∃ s', mm.Pull device_platform 4096 mirrored_block = Ok tt s' ∧
        trace s' = trace mirrored_block ++ [okMemcpyDtoH 4096 28672 16].
Proof.
  split; [reflexivity|].
  destruct (proj1 (proj2 (Pull_copies device_platform mirrored_block
                            {[ 4096 := materialised block16 28672 ]} eq_refl))
              4096 (materialised block16 28672) eq_refl eq_refl)
    as (s' & H1 & _ & _ & _ & H2).
  exists s'. split; [exact H1|exact H2].
Defined.

(** X2.  [Erase] of a registered address removes the entry of that address
    and no other, returns the address with the shifter's offset taken off,
    and makes no call: a device mirror the record had is not released.
    [Known] of the address is false afterwards. *)
Theorem Erase_forgets (P : platform) (s : state) (m : mm_t) (a : Z)
    (r : mm2dev_t) :
  mng s = Some m → m !! a = Some r →
  ∃ s', mm.Erase P a s = Ok (unshifted s a) s' ∧
        entry s' a = None ∧
        (∀ q, q ≠ a → entry s' q = entry s q) ∧
        trace s' = trace s ∧
        mm.Known P a mm.insert_if_in_range_default s' = Ok false s'.
Proof.
  intros Hm Hk. eexists. split; [by apply (Erase_registered P s m a r)|].
  unfold entry. cbn [with_mng mng]. rewrite Hm. repeat split.
  - apply lookup_delete_eq.
  - intros q Hq. by apply lookup_delete_ne.
  - eapply Known_unregistered; [reflexivity|]. apply lookup_delete_eq.
Qed.

Lemma Erase_forgets_witness :
  ∃ s', mm.Erase device_platform 4096 mirrored_block = Ok 4096 s' ∧
        entry s' 4096 = None ∧ trace s' = trace mirrored_block.
Proof.
  destruct (Erase_forgets device_platform mirrored_block
              {[ 4096 := materialised block16 28672 ]} 4096
              (materialised block16 28672) eq_refl eq_refl)
    as (s' & H1 & H2 & _ & H3 & _).
  exists s'. auto.
Defined.

(** ** The first touch of a record in device mode *)

(** X3.  In device mode, [Adrs] of a registered record without a device
    address needs device support: without it the call is fatal.  With it,
    the call allocates the record's byte count (no allocation for a record
    of no bytes), then copies that many bytes from the record's host address
    to the new device address on the stream of the context, files the
    device address in the record with the host flag off, leaves every other
    record alone, and returns the device address.  A record that has a
    device address is answered from the registry, device support or not. *)
Theorem Adrs_first_touch (P : platform) (s : state) (m : mm_t) (p : Z)
    (r : mm2dev_t) :
  Cuda P = true → mng s = Some m → m !! p = Some r →
  (d_adrs r = NULL → nvcc P = false → mm.Adrs P p s = Fatal MfemError) ∧
  (d_adrs r = NULL → nvcc P = true →
     ∃ s', mm.Adrs P p s = Ok (device_address P s r) s' ∧
       entry s' p = Some (materialised r (device_address P s r)) ∧
       (∀ q, q ≠ p → entry s' q = entry s q) ∧
       trace s' = trace s ++
         (if 0 <? bytes r
          then [okMemAlloc (bytes r) (device_address P s r)] else []) ++
         [okMemcpyHtoDAsync (device_address P s r) (h_adrs r) (bytes r)
            (Stream P)]) ∧
  (d_adrs r ≠ NULL → mm.Adrs P p s = Ok (d_adrs r) s).
Proof.
  intros Hc Hm Hk.
  rewrite (Adrs_registered P s m p r Hm Hk), Hc, andb_false_r.
  split; [|split].
  - intros -> ->. reflexivity.
  - intros -> ->. cbn [Z.eqb NULL negb]. eexists. split; [reflexivity|].
    unfold entry. cbn [mng trace]. rewrite Hm. repeat split.
    + apply lookup_insert_eq.
    + intros q Hq. by apply lookup_insert_ne.
  - intros Hd. by rewrite (proj2 (Z.eqb_neq _ _) Hd).
Qed.

Lemma Adrs_first_touch_witness :
  mm.Adrs no_nvcc_platform 4096 one_block = Fatal MfemError ∧
  mm.Adrs no_nvcc_platform 4096 mirrored_block = Ok 28672 mirrored_block.
Proof.
  split.
  - apply (proj1 (Adrs_first_touch no_nvcc_platform one_block
                    {[ 4096 := block16 ]} 4096 block16
                    eq_refl eq_refl eq_refl)); reflexivity.
  - apply (proj2 (proj2 (Adrs_first_touch no_nvcc_platform mirrored_block
                    {[ 4096 := materialised block16 28672 ]} 4096
                    (materialised block16 28672) eq_refl eq_refl eq_refl))).
    discriminate.
Defined.

(** X4.  A record of no bytes never gets a device address: in device mode
    every [Adrs] of it returns null and issues the copy of no bytes again,
    two calls of [Adrs] two copies. *)
Theorem Adrs_of_no_bytes (P : platform) (s : state) (m : mm_t)
    (p : Z) (r : mm2dev_t) :
  Cuda P = true → nvcc P = true →
  mng s = Some m → m !! p = Some r → d_adrs r = NULL → bytes r = 0 →
  ∃ s1 s2, mm.Adrs P p s = Ok NULL s1 ∧ mm.Adrs P p s1 = Ok NULL s2 ∧
           ¬ has_mirror s2 p ∧
           HtoD_copies (trace s2) = S (S (HtoD_copies (trace s))).
Proof.
  intros Hc Hn Hm Hk Hd Hb.
  destruct (Adrs_zero_bytes_copies_again P s m p r Hc Hn Hm Hk Hd Hb)
    as (s1 & s2 & H1 & H2 & H3).
  exists s1, s2. repeat split; try done.
  rewrite (Adrs_registered P s m p r Hm Hk), Hc, Hn, andb_false_r, Hd in H1.
  cbn [Z.eqb NULL negb] in H1. injection H1 as Hda <-.
  erewrite Adrs_registered in H2; [|reflexivity|apply lookup_insert_eq].
  rewrite Hc, Hn, Hda in H2.
  cbn [host materialised d_adrs andb Z.eqb NULL negb] in H2.
  injection H2 as Hdb <-.
  intros (r2 & Hr2 & Hne). unfold entry in Hr2. cbn [mng] in Hr2.
  rewrite lookup_insert_eq in Hr2. injection Hr2 as <-.
  cbn [materialised d_adrs] in Hne. by rewrite Hdb in Hne.
Qed.

Lemma Adrs_of_no_bytes_witness :
  ∃ s1 s2, mm.Adrs device_platform 4096 zero_block = Ok NULL s1 ∧
           mm.Adrs device_platform 4096 s1 = Ok NULL s2 ∧
           HtoD_copies (trace s2) = S (S (HtoD_copies (trace zero_block))).
Proof.
  destruct (Adrs_of_no_bytes device_platform zero_block
              {[ 4096 := Insert_record 4096 0 8 false ]} 4096
              (Insert_record 4096 0 8 false)
              eq_refl eq_refl eq_refl eq_refl eq_refl eq_refl)
    as (s1 & s2 & H1 & H2 & _ & H3).
  exists s1, s2. auto.
Defined.

(** ** The raw copies *)

(** X5.  With device execution off, or for a copy of no bytes, each of the
    four raw copies returns its destination.  A copy of no bytes makes no
    call, in any mode.  With device execution off a copy of some bytes makes
    one call, [std::memcpy] of that many bytes from the source to the
    destination, so that the three directions and [memcpy] are then one
    and the same operation, whatever the [async] flag. *)
Theorem raw_copies_on_the_host (P : platform) (K : kernels)
    (dest src nbytes : Z) (async : bool) :
  (nbytes = 0 →
     mm_H2D P K dest src nbytes async = (dest, []) ∧
     mm_D2H P K dest src nbytes async = (dest, []) ∧
     mm_D2D P K dest src nbytes async = (dest, []) ∧
     mm_memcpy P K dest src nbytes = (dest, [])) ∧
  (Cuda P = false → nbytes ≠ 0 →
     mm_H2D P K dest src nbytes async = (dest, [std_memcpy dest src nbytes]) ∧
     mm_D2H P K dest src nbytes async = mm_H2D P K dest src nbytes async ∧
     mm_D2D P K dest src nbytes async = mm_H2D P K dest src nbytes async ∧
     mm_memcpy P K dest src nbytes = mm_H2D P K dest src nbytes async).
Proof.
  unfold mm_memcpy, mm_H2D, mm_D2H, mm_D2D. split.
  - intros ->. done.
  - intros Hc Hn. rewrite Hc, (proj2 (Z.eqb_neq _ _) Hn). done.
Qed.

Lemma raw_copies_on_the_host_witness :
  mm_D2H host_platform sample_kernels 8192 4096 16 true
  = (8192, [std_memcpy 8192 4096 16]).
Proof.
  destruct (proj2 (raw_copies_on_the_host host_platform sample_kernels
                     8192 4096 16 true) eq_refl) as (H1 & H2 & _).
  - discriminate.
  - rewrite H2. exact H1.
Defined.

(** ** What an operation does to the records on file *)

Lemma bind_Ok_inv {A B} (c : M A) (k : A → M B) (s s' : state) (b : B) :
  bind c k s = Ok b s' → ∃ a s1, c s = Ok a s1 ∧ k a s1 = Ok b s'.
Proof. unfold bind. destruct (c s) as [a s1|f]; [eauto|done]. Qed.

Lemma c_assert_Ok_inv (c : bool) (s s' : state) :
  c_assert c s = Ok tt s' → c = true ∧ s' = s.
Proof. destruct c; unfold c_assert, ret, abort; [|done]. by intros [= ->]. Qed.

Lemma MFEM_ASSERT_Ok_inv (c : bool) (s s' : state) :
  MFEM_ASSERT c s = Ok tt s' → c = true ∧ s' = s.
Proof. destruct c; unfold MFEM_ASSERT, ret, abort; [|done]. by intros [= ->]. Qed.

Lemma Known_find_Ok_inv (a : Z) (s s' : state) (known : bool) :
  mm.Known_find a s = Ok known s' →
  ∃ m, mng s = Some m ∧ s' = s ∧ known = bool_decide (is_Some (m !! a)).
Proof.
  unfold mm.Known_find, bind, get_mng, ret.
  destruct (mng s) as [m|]; [|done]. intros [= <- <-]. eauto.
Qed.

Lemma operator_index_Ok_inv (P : platform) (k : Z) (s s' : state)
    (r : mm2dev_t) :
  operator_index P k s = Ok r s' →
  ∃ m, mng s = Some m ∧
       ((m !! k = Some r ∧ s' = s) ∨
        (m !! k = None ∧ r = mm2dev_init P ∧ s' = with_mng (<[k := r]> m) s)).
Proof.
  unfold operator_index, bind, get_mng, put_mng, ret. intros H.
  destruct (mng s) as [m|]; [|done]. exists m. split; [done|].
  destruct (m !! k) as [r0|]; injection H as <- <-; eauto.
Qed.

Lemma grows_refl (s : state) : is_Some (mng s) → grows s s.
Proof.
  intros Hm. repeat split; [|done|eauto].
  exists []. split; [by rewrite app_nil_r|constructor].
Qed.

Lemma materialised_twice (r : mm2dev_t) (d d' : Z) :
  materialised (materialised r d) d' = materialised r d'.
Proof. reflexivity. Qed.

Lemma grows_trans (s1 s2 s3 : state) : grows s1 s2 → grows s2 s3 → grows s1 s3.
Proof.
  intros (Hx & Hs & (t & Ht & Hft) & Hm & Hr) (Hx' & Hs' & (t' & Ht' & Hft') & Hm' & Hr').
  repeat split; [congruence|congruence| |done|].
  - exists (t ++ t'). split; [by rewrite Ht', Ht, app_assoc|].
    by apply Forall_app.
  - intros k r Hk. destruct (Hr k r Hk) as [H2|[d H2]].
    + by apply Hr'.
    + destruct (Hr' k _ H2) as [H3|[d' H3]]; [eauto|].
      right. exists d'. by rewrite H3, materialised_twice.
Qed.

Lemma grows_insert_fresh (s : state) (m : mm_t) (k : Z) (r : mm2dev_t) :
  mng s = Some m → m !! k = None → grows s (with_mng (<[k := r]> m) s).
Proof.
  intros Hm Hk. repeat split; [|by eexists|].
  - exists []. split; [by rewrite app_nil_r|constructor].
  - intros k' r' Hk'. left. unfold entry in *. cbn [with_mng mng].
    rewrite Hm in Hk'. rewrite lookup_insert_ne; [done|]. congruence.
Qed.

Lemma grows_with_call (s : state) (c : call) :
  is_Some (mng s) → is_Setup c = false → grows s (with_call c s).
Proof.
  intros Hm Hc. repeat split; [|done|eauto].
  exists [c]. split; [done|]. by constructor.
Qed.

Lemma operator_index_grows (P : platform) (k : Z) (s s' : state)
    (r : mm2dev_t) :
  operator_index P k s = Ok r s' → grows s s' ∧ entry s' k = Some r.
Proof.
  intros (m & Hm & [[Hk ->]|(Hk & -> & ->)])%operator_index_Ok_inv.
  - split; [apply grows_refl; by rewrite Hm|]. unfold entry. by rewrite Hm.
  - split; [by apply grows_insert_fresh|]. unfold entry. cbn.
    by rewrite lookup_insert_eq.
Qed.

Lemma Insert_grows (P : platform) (s s' : state) (a n sz q : Z) (rg : bool) :
  mm.Insert P a n sz rg s = Ok q s' → grows (ready P s) s'.
Proof.
  intros (m0 & Hm0 & Hk & -> & ->)%Insert_Ok_inv. by apply grows_insert_fresh.
Qed.

Lemma Known_grows (P : platform) (s s' : state) (a : Z) (b known : bool) :
  mm.Known P a b s = Ok known s' →
  is_Some (mng s) ∧ grows s s' ∧ trace s' = trace s.
Proof.
  intros H. unfold mm.Known in H.
  apply bind_Ok_inv in H as (known0 & s0 & H0 & H).
  apply Known_find_Ok_inv in H0 as (m & Hm & -> & ->).
  assert (Hsome : is_Some (mng s)) by (by rewrite Hm).
  split; [done|].
  destruct (bool_decide (is_Some (m !! a))) eqn:Hk.
  { unfold ret in H. injection H as <- <-. split; [by apply grows_refl|done]. }
  destruct b; cbn [negb] in H.
  2: { unfold ret in H. injection H as <- <-. split; [by apply grows_refl|done]. }
  apply bind_Ok_inv in H as (base & s1 & HR & H).
  assert (Hnone : m !! a = None).
  { apply bool_decide_eq_false in Hk. destruct (m !! a); [exfalso; eauto|done]. }
  rewrite (Range_unregistered P s m a Hm Hnone) in HR. injection HR as <- <-.
  destruct (mm.Range_loop (iteration P m) a =? NULL).
  { unfold ret in H. injection H as <- <-. split; [by apply grows_refl|done]. }
  apply bind_Ok_inv in H as (rb & s2 & Hop & H).
  apply bind_Ok_inv in H as ([] & s3 & Ha1 & H).
  apply c_assert_Ok_inv in Ha1 as [_ ->].
  apply bind_Ok_inv in H as ([] & s4 & Ha2 & H).
  apply c_assert_Ok_inv in Ha2 as [_ ->].
  apply bind_Ok_inv in H as (q & s5 & HI & H).
  unfold ret in H. injection H as <- <-.
  pose proof (operator_index_grows P _ s s2 rb Hop) as [Hg2 _].
  assert (Hready : ready P s2 = s2).
  { destruct Hg2 as (_ & _ & _ & [m2 Hm2] & _). by apply (ready_ready P s2 m2). }
  pose proof (Insert_grows P s2 s5 _ _ _ _ _ HI) as Hg5. rewrite Hready in Hg5.
  split; [by eapply grows_trans|].
  apply Insert_Ok_inv in HI as (m0 & _ & _ & _ & ->). rewrite Hready.
  cbn [with_mng trace].
  apply operator_index_Ok_inv in Hop as (m' & _ & [[_ ->]|(_ & _ & ->)]); done.
Qed.

Lemma Adrs_Ok_inv (P : platform) (s s' : state) (a q : Z) :
  mm.Adrs P a s = Ok q s' →
  ∃ s1 s2 m2 r,
    mm.Known P a true s = Ok true s1 ∧
    operator_index P a s1 = Ok r s2 ∧
    mng s2 = Some m2 ∧ m2 !! a = Some r ∧
    mm.Adrs P a s2 = Ok q s'.
Proof.
  intros H. unfold mm.Adrs in H. cbv zeta in H.
  apply bind_Ok_inv in H as (known & s1 & HK & H).
  apply bind_Ok_inv in H as ([] & s1' & Htrap & H).
  destruct known; [|done]. cbn [negb] in Htrap. unfold ret in Htrap.
  injection Htrap as <-.
  apply bind_Ok_inv in H as ([] & s1' & Hassert & H).
  apply MFEM_ASSERT_Ok_inv in Hassert as [_ ->].
  apply bind_Ok_inv in H as (r & s2 & Hop & H).
  destruct (operator_index_grows P a s1 s2 r Hop) as [_ He].
  unfold entry in He. destruct (mng s2) as [m2|] eqn:Hm2; [|done].
  exists s1, s2, m2, r. repeat split; try done.
  unfold mm.Adrs. cbv zeta.
  rewrite (bind_Ok _ _ _ _ _ (Known_registered P s2 m2 a r _ Hm2 He)).
  unfold MFEM_ASSERT. cbn [negb]. unfold bind at 1 2, ret at 1 2.
  by rewrite (bind_Ok _ _ _ _ _ (operator_index_present P s2 m2 a r Hm2 He)).
Qed.

Lemma Adrs_registered_grows (P : platform) (s s' : state) (m : mm_t)
    (a q : Z) (r : mm2dev_t) :
  mng s = Some m → m !! a = Some r →
  mm.Adrs P a s = Ok q s' → grows s s'.
Proof.
  intros Hm Hk H. rewrite (Adrs_registered P s m a r Hm Hk) in H.
  assert (Hs : is_Some (mng s)) by (by rewrite Hm).
  destruct (host r && negb (Cuda P)).
  { injection H as _ <-. by apply grows_refl. }
  destruct (d_adrs r =? NULL).
  2: { injection H as _ <-. by apply grows_refl. }
  destruct (negb (nvcc P)); [done|]. injection H as _ <-.
  repeat split; cbn [mng trace xs_shift xs_shifted]; [|by eexists|].
  - eexists. split; [done|]. unfold materialise_calls.
    destruct (0 <? bytes r); repeat constructor.
  - intros k r' Hk'. unfold entry in *. cbn [mng]. rewrite Hm in Hk'.
    destruct (decide (k = a)) as [->|Hne].
    + right. rewrite lookup_insert_eq. rewrite Hk in Hk'. injection Hk' as <-.
      eauto.
    + left. by rewrite lookup_insert_ne.
Qed.

Lemma Adrs_grows (P : platform) (s s' : state) (a q : Z) :
  mm.Adrs P a s = Ok q s' → is_Some (mng s) ∧ grows s s'.
Proof.
  intros (s1 & s2 & m2 & r & HK & Hop & Hm2 & Hr & H)%Adrs_Ok_inv.
  destruct (Known_grows P s s1 a true true HK) as (Hs & Hg1 & _).
  split; [done|].
  destruct (operator_index_grows P a s1 s2 r Hop) as [Hg2 _].
  eapply grows_trans; [exact Hg1|]. eapply grows_trans; [exact Hg2|].
  by eapply Adrs_registered_grows.
Qed.

Lemma Push_Pull_Ok_inv (P : platform) (s s' : state) (a : Z) :
  mm.Push P a s = Ok tt s' ∨ mm.Pull P a s = Ok tt s' →
  ∃ m r, mng s = Some m ∧ m !! a = Some r ∧
         (s' = s ∨ (host r = false ∧ ∃ c, is_Setup c = false ∧ s' = with_call c s)).
Proof.
  intros H. destruct (mng s) as [m|] eqn:Hm.
  2: { destruct H as [H|H];
         unfold mm.Push, mm.Pull, mm.Known, mm.Known_find, bind, get_mng in H;
         by rewrite Hm in H. }
  destruct (m !! a) as [r|] eqn:Hk.
  2: { destruct H as [H|H]; unfold mm.Push, mm.Pull in H;
         by rewrite (bind_Ok _ _ _ _ _ (Known_unregistered P s m a Hm Hk)) in H. }
  exists m, r. repeat split; try done.
  destruct H as [H|H].
  - rewrite (Push_registered P s m a r Hm Hk) in H. injection H as <-.
    destruct (host r); [by left|right]. split; [done|].
    eexists. split; [|reflexivity]. reflexivity.
  - rewrite (Pull_registered P s m a r Hm Hk) in H. injection H as <-.
    destruct (host r); [by left|right]. split; [done|].
    eexists. split; [|reflexivity]. reflexivity.
Qed.

Lemma Push_Pull_grows (P : platform) (s s' : state) (a : Z) :
  mm.Push P a s = Ok tt s' ∨ mm.Pull P a s = Ok tt s' →
  is_Some (mng s) ∧ grows s s'.
Proof.
  intros (m & r & Hm & _ & [->|(_ & c & Hc & ->)])%Push_Pull_Ok_inv.
  - split; [by rewrite Hm|]. apply grows_refl. by rewrite Hm.
  - split; [by rewrite Hm|]. apply grows_with_call; [by rewrite Hm|done].
Qed.

(** X6.  [Insert], [Known], [Adrs], [Push] and [Pull], whenever they return,
    keep every record that was on file: none is removed, and the byte count,
    the host address and the ranged mark of a record never change.  The only
    change a record on file ever sees is a device address filled in with the
    host flag turned off.  These operations leave the statics of the shifter
    as they are and make no call to the [Setup] of the device context, except
    that [Insert] runs [Setup] first when there is no registry yet. *)
Theorem operations_keep_records (P : platform) (s s' : state) :
  (∀ a n sz rg q, mm.Insert P a n sz rg s = Ok q s' → grows (ready P s) s') ∧
  (∀ a b known, mm.Known P a b s = Ok known s' → grows s s') ∧
  (∀ a q, mm.Adrs P a s = Ok q s' → grows s s') ∧
  (∀ a, mm.Push P a s = Ok tt s' → grows s s') ∧
  (∀ a, mm.Pull P a s = Ok tt s' → grows s s').
Proof.
  split; [|split; [|split; [|split]]].
  - intros a n sz rg q. apply Insert_grows.
  - intros a b known H. by apply Known_grows in H as (_ & H & _).
  - intros a q H. by apply Adrs_grows in H as [_ H].
  - intros a H. by apply (Push_Pull_grows P s s' a (or_introl H)).
  - intros a H. by apply (Push_Pull_grows P s s' a (or_intror H)).
Qed.

Lemma operations_keep_records_witness :
  mm.Adrs device_platform 4096 one_block = Ok 28672 mirrored_block ∧
  grows one_block mirrored_block.
Proof.
  assert (H : mm.Adrs device_platform 4096 one_block = Ok 28672 mirrored_block)
    by (vm_compute; reflexivity).
  split; [exact H|].
  exact (proj1 (proj2 (proj2 (operations_keep_records device_platform
                                one_block mirrored_block))) 4096 28672 H).
Defined.

(** ** What is settled for the life of the process *)

Lemma Setup_calls_app (t u : list call) :
  Setup_calls (t ++ u) = (Setup_calls t + Setup_calls u)%nat.
Proof. unfold Setup_calls. by rewrite filter_app, length_app. Qed.

Lemma Setup_calls_none (t : list call) :
  Forall (λ c, is_Setup c = false) t → Setup_calls t = 0%nat.
Proof.
  unfold Setup_calls. induction 1 as [|c t Hc _ IH]; [done|].
  rewrite filter_cons. by rewrite Hc.
Qed.

Lemma Setup_Ok_inv (P : platform) (s s' : state) :
  mm.Setup P s = Ok tt s' → mng s = None ∧ s' = after_Setup P s.
Proof.
  intros H. destruct (mng s) as [m|] eqn:Hm.
  - unfold mm.Setup, bind, get, c_assert in H. rewrite Hm in H.
    by rewrite bool_decide_eq_false_2 in H.
  - rewrite (Setup_uninitialised P s Hm) in H. by injection H as <-.
Qed.

Lemma Setup_again (P : platform) (s : state) (m : mm_t) :
  mng s = Some m → mm.Setup P s = Fatal AssertionFailed.
Proof.
  intros Hm. unfold mm.Setup, bind, get, c_assert. rewrite Hm.
  by rewrite bool_decide_eq_false_2.
Qed.

Lemma Erase_Ok_inv (P : platform) (s s' : state) (a q : Z) :
  mm.Erase P a s = Ok q s' →
  ∃ m r, mng s = Some m ∧ m !! a = Some r ∧
         q = unshifted s a ∧ s' = with_mng (delete a m) s.
Proof.
  intros H. destruct (mng s) as [m|] eqn:Hm.
  2: { unfold mm.Erase, mm.Known, mm.Known_find, bind, get_mng in H.
       by rewrite Hm in H. }
  destruct (m !! a) as [r|] eqn:Hk.
  - rewrite (Erase_registered P s m a r Hm Hk) in H. injection H as <- <-.
    by exists m, r.
  - by rewrite (Erase_unregistered P s m a Hm Hk) in H.
Qed.

Lemma settled_after_Setup (P : platform) : settled P (after_Setup P initial).
Proof.
  unfold settled, after_Setup. destruct (getenv_XS P); cbn; by repeat split.
Qed.

Lemma settled_ready (P : platform) (s : state) :
  settled P s → settled P (ready P s) ∧ is_Some (mng (ready P s)).
Proof.
  intros Hs. split; [|apply ready_mng]. unfold ready.
  destruct (mng s) eqn:Hm; [done|]. unfold settled in Hs. rewrite Hm in Hs.
  subst s. apply settled_after_Setup.
Qed.

Lemma settled_grows (P : platform) (s s' : state) :
  is_Some (mng s) → settled P s → grows s s' → settled P s'.
Proof.
  intros [m Hm] Hs (Hx & Hsh & (t & Ht & Hft) & [m' Hm'] & _).
  unfold settled in *. rewrite Hm in Hs. rewrite Hm'.
  destruct Hs as [Hxs Hc]. split.
  - unfold shifter_on, shifter_off in *. rewrite Hx, Hsh. done.
  - rewrite Ht, Setup_calls_app, Hc, (Setup_calls_none t Hft). done.
Qed.

Lemma settled_shifter (P : platform) (s : state) :
  settled P s → is_Some (mng s) → shifter_on s ∨ shifter_off s.
Proof.
  intros Hs [m Hm]. unfold settled in Hs. rewrite Hm in Hs.
  destruct Hs as [Hx _]. destruct (getenv_XS P); eauto.
Qed.

Lemma reachable_settled (P : platform) (s : state) :
  reachable P s → settled P s.
Proof.
  induction 1 as
    [ | s s' _ IH H | s a n sz rg q s' _ IH Ha H | s a q s' _ IH Ha H
    | s a b known s' _ IH Ha H | s a q s' _ IH Ha H
    | s a s' _ IH Ha H | s a s' _ IH Ha H ].
  - reflexivity.
  - apply Setup_Ok_inv in H as [Hm ->]. unfold settled in IH.
    rewrite Hm in IH. subst s. apply settled_after_Setup.
  - destruct (settled_ready P s IH) as [Hr Hm].
    eapply settled_grows; [exact Hm|exact Hr|]. by eapply Insert_grows.
  - apply Erase_Ok_inv in H as (m & r & Hm & _ & _ & ->).
    unfold settled in *. by rewrite Hm in IH.
  - apply Known_grows in H as (Hm & Hg & _). by eapply settled_grows.
  - apply Adrs_grows in H as (Hm & Hg). by eapply settled_grows.
  - apply (λ H, Push_Pull_grows P s s' a (or_introl H)) in H as (Hm & Hg).
    by eapply settled_grows.
  - apply (λ H, Push_Pull_grows P s s' a (or_intror H)) in H as (Hm & Hg).
    by eapply settled_grows.
Qed.

(** X7.  In every state the operations can bring about, either nothing has
    happened yet, or there is a registry, the [Setup] of the device context
    has been called exactly once, and the shifter is on with its offset of
    [2^48] words if XS was set in the environment and off with offset 0 if it
    was not.  [Setup] on a manager that has a registry is fatal, so the
    registry is never replaced. *)
Theorem process_lifetime (P : platform) (s : state) :
  reachable P s →
  settled P s ∧
  (is_Some (mng s) → mm.Setup P s = Fatal AssertionFailed).
Proof.
  intros Hr. split; [by apply reachable_settled|].
  intros [m Hm]. by apply (Setup_again P s m).
Qed.

Lemma process_lifetime_witness :
  reachable shifted_platform shifted_block ∧
  settled shifted_platform shifted_block ∧
  mm.Setup shifted_platform shifted_block = Fatal AssertionFailed.
Proof.
  assert (Hreach : reachable shifted_platform shifted_block).
  { apply (reach_Insert shifted_platform initial 4096 16 1 false
             (4096 + 2 ^ 51) shifted_block).
    - constructor.
    - unfold is_address, SIZE_MAX1. lia.
    - vm_compute. reflexivity. }
  split; [exact Hreach|].
  destruct (process_lifetime shifted_platform shifted_block Hreach) as [H1 H2].
  split; [exact H1|]. apply H2. by eexists.
Defined.

(** ** Insert and Erase, there and back *)

Lemma ptr_sub_add (p n : Z) : is_address p → ptr_sub (ptr_add p n) n = p.
Proof.
  intros Hp. unfold ptr_sub, ptr_add, to_size_t.
  rewrite Zminus_mod_idemp_l.
  replace (p + sizeof_size_t * n - sizeof_size_t * n) with p by lia.
  by apply Z.mod_small.
Qed.

(** X8.  In a state the operations can bring about, [Insert] of a fresh
    address followed by [Erase] of the address [Insert] returned gives back
    the address first given, shifter on or off, and leaves the registry
    exactly as it was before the two calls (as [Setup] left it, if [Insert]
    had to run it), with no call made by either. *)
Theorem Insert_Erase_round_trip (P : platform) (s : state) (m0 : mm_t)
    (p n sz : Z) (rg : bool) :
  reachable P s → is_address p →
  mng (ready P s) = Some m0 → m0 !! Insert_key P s p = None →
  ∃ q s1 s2,
    mm.Insert P p n sz rg s = Ok q s1 ∧
    mm.Erase P q s1 = Ok p s2 ∧
    s2 = ready P s.
Proof.
  intros Hreach Hp Hm Hk.
  exists (Insert_key P s p). eexists. eexists.
  split; [by apply Insert_fresh|].
  set (q := Insert_key P s p) in *.
  set (rec := Insert_record q n sz rg).
  erewrite (Erase_registered P _ _ q rec); [|reflexivity|apply lookup_insert_eq].
  assert (Hback : (if xs_shifted (ready P s)
                   then ptr_sub q (xs_shift (ready P s)) else q) = p).
  { destruct (settled_ready P s (reachable_settled P s Hreach)) as [Hs Hsome].
    destruct (settled_shifter P _ Hs Hsome) as [[Hon _]|[Hoff Hx]].
    - rewrite Hon. by apply ptr_sub_add.
    - rewrite Hoff. unfold q, Insert_key, ptr_add.
      rewrite Hx, Z.mul_0_r, Z.add_0_r. by apply to_size_t_id. }
  cbn [with_mng xs_shifted xs_shift]. rewrite Hback.
  split; [reflexivity|].
  unfold with_mng. cbn [mng xs_shift xs_shifted trace].
  rewrite (delete_insert_id m0 q rec Hk). rewrite <- Hm.
  by destruct (ready P s).
Qed.

Lemma Insert_Erase_round_trip_witness :
  ∃ q s1 s2,
    mm.Insert shifted_platform 8192 100 8 false shifted_block = Ok q s1 ∧
    mm.Erase shifted_platform q s1 = Ok 8192 s2 ∧
    s2 = shifted_block.
Proof.
  assert (Hreach : reachable shifted_platform shifted_block).
  { apply (reach_Insert shifted_platform initial 4096 16 1 false
             (4096 + 2 ^ 51) shifted_block).
    - constructor.
    - unfold is_address, SIZE_MAX1. lia.
    - vm_compute. reflexivity. }
  apply (Insert_Erase_round_trip shifted_platform shifted_block
           {[ 4096 + 2 ^ 51 := Insert_record (4096 + 2 ^ 51) 16 1 false ]}
           8192 100 8 false Hreach).
  - unfold is_address, SIZE_MAX1. lia.
  - reflexivity.
  - vm_compute. reflexivity.
Defined.

(** ** Records with the shifter off *)

Lemma Range_loop_result (l : list (Z * mm2dev_t)) (a : Z) :
  mm.Range_loop l a = NULL ∨ ∃ e, e ∈ l ∧ mm.Range_loop l a = h_adrs e.2.
Proof.
  destruct (Range_loop_first l a) as [(l1 & e & l2 & -> & _ & _ & Hr)|[_ Hr]].
  - right. exists e. split; [set_solver|done].
  - by left.
Qed.

(** The shape of the state after [Known] with range insertion, when every
    record is filed under its host address and the shifter is off. *)
Lemma Known_range_shape (P : platform) (s s' : state) (m : mm_t) (a : Z)
    (known : bool) :
  iteration_ok P → shifter_off s → is_address a → mng s = Some m →
  (∀ k r, m !! k = Some r → h_adrs r = k) →
  mm.Known P a true s = Ok known s' →
  (s' = s ∧ (known = true → is_Some (m !! a))) ∨
  (known = true ∧ m !! a = None ∧
   ∃ n, s' = with_mng (<[a := Insert_record a n 1 mm.ranged_default]> m) s).
Proof.
  intros HP Hoff Ha Hm Hkeys H. unfold mm.Known in H.
  rewrite (bind_Ok _ _ _ _ _ (Known_find_eq s m a Hm)) in H.
  destruct (bool_decide (is_Some (m !! a))) eqn:Hk.
  { unfold ret in H. injection H as <- <-. left. split; [done|]. intros _.
    by apply bool_decide_eq_true in Hk. }
  apply bool_decide_eq_false in Hk.
  assert (Hnone : m !! a = None).
  { destruct (m !! a); [exfalso; eauto|done]. }
  cbn [negb] in H.
  rewrite (bind_Ok _ _ _ _ _ (Range_unregistered P s m a Hm Hnone)) in H.
  destruct (Range_loop_result (iteration P m) a) as [Hr|(e & He & Hr)];
    rewrite Hr in H.
  { unfold ret in H. cbn in H. injection H as <- <-. left. by split. }
  destruct (h_adrs e.2 =? NULL).
  { unfold ret in H. injection H as <- <-. left. by split. }
  apply (iteration_lookup P m e HP) in He.
  rewrite (Hkeys _ _ He) in H.
  rewrite (bind_Ok _ _ _ _ _ (operator_index_present P s m _ _ Hm He)) in H.
  apply bind_Ok_inv in H as ([] & s3 & Ha1 & H).
  apply c_assert_Ok_inv in Ha1 as [_ ->].
  apply bind_Ok_inv in H as ([] & s4 & Ha2 & H).
  apply c_assert_Ok_inv in Ha2 as [_ ->].
  apply bind_Ok_inv in H as (q & s5 & HI & H).
  unfold ret in H. injection H as <- <-.
  apply Insert_Ok_inv in HI as (m0 & Hm0 & _ & Hq & ->).
  rewrite (ready_ready P s m Hm) in *. rewrite Hm in Hm0. injection Hm0 as <-.
  rewrite (Insert_key_off P s m a Hm Hoff Ha) in Hq. subst q.
  right. repeat split; [done|]. by eexists.
Qed.

Lemma tidy_insert (s : state) (m : mm_t) (k n sz : Z) (rg : bool) :
  tidy s → mng s = Some m →
  tidy (with_mng (<[k := Insert_record k n sz rg]> m) s).
Proof.
  intros [Hoff Hr] Hm. split; [done|].
  intros m' k' r' Hm' Hk'. cbn in Hm'. injection Hm' as <-.
  destruct (decide (k' = k)) as [->|Hne].
  - rewrite lookup_insert_eq in Hk'. injection Hk' as <-. by split.
  - rewrite lookup_insert_ne in Hk' by done. by eapply Hr.
Qed.

Lemma tidy_ready (P : platform) (s : state) :
  getenv_XS P = false → tidy s → tidy (ready P s).
Proof.
  intros HX Ht. unfold ready. destruct (mng s) eqn:Hm; [done|].
  destruct Ht as [[Hs Hx] _]. unfold after_Setup. rewrite HX.
  split; [by split|]. intros m k r Hm'. cbn in Hm'. injection Hm' as <-.
  by rewrite lookup_empty.
Qed.

Lemma Known_range_tidy (P : platform) (s s' : state) (a : Z) (known : bool) :
  iteration_ok P → tidy s → is_address a →
  mm.Known P a true s = Ok known s' →
  tidy s' ∧ (known = true → is_Some (entry s' a)).
Proof.
  intros HP Ht Ha H.
  destruct (Known_grows P s s' a true known H) as ([m Hm] & _ & _).
  destruct (Known_range_shape P s s' m a known HP (proj1 Ht) Ha Hm) as
    [[-> Hreg]|(-> & _ & n & ->)]; [| done | |].
  - intros k r Hk. by apply (proj2 Ht m k r Hm Hk).
  - split; [done|]. unfold entry. by rewrite Hm.
  - split; [by apply tidy_insert|]. intros _. unfold entry. cbn.
    rewrite lookup_insert_eq. eauto.
Qed.

Lemma Adrs_tidy (P : platform) (s s' : state) (a q : Z) :
  iteration_ok P → tidy s → is_address a →
  mm.Adrs P a s = Ok q s' →
  tidy s' ∧
  ∃ s1 m1 r, mm.Known P a true s = Ok true s1 ∧ mng s1 = Some m1 ∧
             m1 !! a = Some r ∧ mm.Adrs P a s1 = Ok q s'.
Proof.
  intros HP Ht Ha (s1 & s2 & m2 & r & HK & Hop & Hm2 & Hr & H)%Adrs_Ok_inv.
  destruct (Known_range_tidy P s s1 a true HP Ht Ha HK) as [Ht1 Hreg].
  destruct (Hreg eq_refl) as [r1 Hr1]. unfold entry in Hr1.
  destruct (mng s1) as [m1|] eqn:Hm1; [|done].
  rewrite (operator_index_present P s1 m1 a r1 Hm1 Hr1) in Hop.
  injection Hop as <- <-. rewrite Hm1 in Hm2. injection Hm2 as <-.
  split; [|by exists s1, m1, r1].
  rewrite (Adrs_registered P s1 m1 a r1 Hm1 Hr1) in H.
  destruct (host r1 && negb (Cuda P)); [by injection H as _ <-|].
  destruct (d_adrs r1 =? NULL); [|by injection H as _ <-].
  destruct (negb (nvcc P)); [done|]. injection H as _ <-.
  destruct Ht1 as [Hoff Hrec]. split; [done|].
  intros m' k r' Hm' Hk. cbn in Hm'. injection Hm' as <-.
  destruct (decide (k = a)) as [->|Hne].
  - rewrite lookup_insert_eq in Hk. injection Hk as <-.
    cbn [materialised h_adrs host d_adrs]. split; [|done].
    by apply (Hrec m1 a r1 Hm1 Hr1).
  - rewrite lookup_insert_ne in Hk by done. by eapply Hrec.
Qed.

Lemma reachable_tidy (P : platform) (s : state) :
  iteration_ok P → getenv_XS P = false → reachable P s → tidy s.
Proof.
  intros HP HX. induction 1 as
    [ | s s' _ IH H | s a n sz rg q s' _ IH Ha H | s a q s' _ IH Ha H
    | s a b known s' _ IH Ha H | s a q s' _ IH Ha H
    | s a s' _ IH Ha H | s a s' _ IH Ha H ].
  - split; [by split|]. intros m k r Hm. discriminate.
  - apply Setup_Ok_inv in H as [Hm ->].
    pose proof (tidy_ready P s HX IH) as Hr. unfold ready in Hr.
    by rewrite Hm in Hr.
  - apply Insert_Ok_inv in H as (m0 & Hm0 & _ & _ & ->).
    apply tidy_insert; [by apply tidy_ready|done].
  - apply Erase_Ok_inv in H as (m & r & Hm & _ & _ & ->).
    destruct IH as [Hoff Hrec]. split; [done|].
    intros m' k r' Hm' Hk. cbn in Hm'. injection Hm' as <-.
    apply lookup_delete_Some in Hk as [_ Hk]. by eapply Hrec.
  - destruct b.
    + by eapply Known_range_tidy.
    + destruct (Known_grows P s s' a false known H) as ([m Hm] & _ & _).
      rewrite (Known_query P s m a Hm) in H. by injection H as _ <-.
  - by eapply Adrs_tidy.
  - apply (λ H, Push_Pull_Ok_inv P s s' a (or_introl H)) in H
      as (m & r & Hm & _ & [->|(_ & c & _ & ->)]); [done|by destruct IH].
  - apply (λ H, Push_Pull_Ok_inv P s s' a (or_intror H)) in H
      as (m & r & Hm & _ & [->|(_ & c & _ & ->)]); [done|by destruct IH].
Qed.

(** X9.  With the shifter off, in every state the operations can bring
    about, device execution on or off, every record is filed under its own
    host address, and a host-side record has no device address.  So [Adrs]
    of a registered address returns either that very address or the device
    address on file for it. *)
Theorem records_are_tidy (P : platform) (s : state) (m : mm_t) :
  iteration_ok P → getenv_XS P = false → reachable P s → mng s = Some m →
  (∀ k r, m !! k = Some r →
          h_adrs r = k ∧ (host r = true → d_adrs r = NULL)) ∧
  (∀ p r q s', m !! p = Some r → mm.Adrs P p s = Ok q s' →
               q = p ∨ ∃ r', entry s' p = Some r' ∧ q = d_adrs r').
Proof.
  intros HP HX Hreach Hm.
  destruct (reachable_tidy P s HP HX Hreach) as [[Hsh _] Hrec].
  split; [intros k r Hk; by apply (Hrec m k r Hm Hk)|].
  intros p r q s' Hk H.
  destruct (Hrec m p r Hm Hk) as [Hbase _].
  rewrite (Adrs_registered P s m p r Hm Hk) in H.
  destruct (host r && negb (Cuda P)).
  { injection H as <- _. left. unfold unshifted. by rewrite Hsh. }
  right. destruct (d_adrs r =? NULL).
  - destruct (negb (nvcc P)); [done|]. injection H as <- <-.
    eexists. unfold entry. cbn [mng]. rewrite lookup_insert_eq. by split.
  - injection H as <- <-. exists r. unfold entry. by rewrite Hm.
Qed.

Lemma records_are_tidy_witness :
  reachable device_platform mirrored_block ∧
  ∀ k r, ({[ 4096 := materialised block16 28672 ]} : mm_t) !! k = Some r →
         h_adrs r = k ∧ (host r = true → d_adrs r = NULL).
Proof.
  assert (Hreach : reachable device_platform mirrored_block).
  { apply (reach_Adrs device_platform one_block 4096 28672 mirrored_block).
    - apply (reach_Insert device_platform initial 4096 16 1 false 4096
               one_block).
      + constructor.
      + unfold is_address, SIZE_MAX1. lia.
      + vm_compute. reflexivity.
    - unfold is_address, SIZE_MAX1. lia.
    - vm_compute. reflexivity. }
  split; [exact Hreach|].
  apply (records_are_tidy device_platform mirrored_block
           {[ 4096 := materialised block16 28672 ]}).
  - intros m. reflexivity.
  - reflexivity.
  - exact Hreach.
  - reflexivity.
Defined.

(** ** A process without a device *)

(** X10.  With device execution and the shifter off, no operation ever calls
    the raw copy backend, whatever the program does: in every state the
    operations can bring about, the one call made so far is the [Setup] of
    the device context, made when the registry was created. *)
Theorem host_mode_is_silent (P : platform) (s : state) :
  iteration_ok P → getenv_XS P = false → Cuda P = false →
  reachable P s →
  trace s = match mng s with None => [] | Some _ => [config_Setup] end.
Proof.
  intros HP HX Hc. induction 1 as
    [ | s s' Hs IH H | s a n sz rg q s' Hs IH Ha H | s a q s' Hs IH Ha H
    | s a b known s' Hs IH Ha H | s a q s' Hs IH Ha H
    | s a s' Hs IH Ha H | s a s' Hs IH Ha H ].
  - reflexivity.
  - apply Setup_Ok_inv in H as [Hm ->]. rewrite Hm in IH.
    unfold after_Setup. rewrite HX. cbn. by rewrite IH.
  - apply Insert_Ok_inv in H as (m0 & Hm0 & _ & _ & ->). cbn [with_mng mng trace].
    unfold ready, after_Setup. destruct (mng s) eqn:Hm; [done|].
    rewrite HX. cbn. by rewrite IH.
  - apply Erase_Ok_inv in H as (m & r & Hm & _ & _ & ->). by rewrite Hm in IH.
  - apply Known_grows in H as ([m Hm] & (_ & _ & _ & [m' Hm'] & _) & Ht).
    rewrite Hm in IH. by rewrite Hm', Ht.
  - destruct (reachable_tidy P s HP HX Hs) as [Hoff Hrec].
    destruct (Adrs_tidy P s s' a q HP (conj Hoff Hrec) Ha H)
      as (_ & s1 & m1 & r & HK & Hm1 & Hr & H1).
    assert (Hs1 : reachable P s1) by (by eapply reach_Known).
    destruct (reachable_host_only P s1 HP HX Hc Hs1) as [_ Hhost].
    destruct (Hhost m1 a r Hm1 Hr) as [Hh _].
    rewrite (Adrs_registered P s1 m1 a r Hm1 Hr), Hh, Hc in H1.
    injection H1 as _ <-.
    apply Known_grows in HK as ([m Hm] & _ & Ht).
    rewrite Hm in IH. by rewrite Hm1, Ht.
  - destruct (reachable_host_only P s HP HX Hc Hs) as [_ Hhost].
    apply (λ H, Push_Pull_Ok_inv P s s' a (or_introl H)) in H
      as (m & r & Hm & Hr & [->|(Hh & _)]); [done|].
    destruct (Hhost m a r Hm Hr) as [Hh' _]. congruence.
  - destruct (reachable_host_only P s HP HX Hc Hs) as [_ Hhost].
    apply (λ H, Push_Pull_Ok_inv P s s' a (or_intror H)) in H
      as (m & r & Hm & Hr & [->|(Hh & _)]); [done|].
    destruct (Hhost m a r Hm Hr) as [Hh' _]. congruence.
Qed.

Lemma host_mode_is_silent_witness :
  reachable host_platform one_block ∧ trace one_block = [config_Setup].
Proof.
  assert (Hreach : reachable host_platform one_block).
  { apply (reach_Insert host_platform initial 4096 16 1 false 4096 one_block).
    - constructor.
    - unfold is_address, SIZE_MAX1. lia.
    - vm_compute. reflexivity. }
  split; [exact Hreach|].
  apply (host_mode_is_silent host_platform one_block).
  - intros m. reflexivity.
  - reflexivity.
  - reflexivity.
  - exact Hreach.
Defined.

(** ** The extent Range scans *)

Lemma Range_accepts_iff (r : mm2dev_t) (a : Z) :
  block_ok r → Range_accepts r a = true ↔ in_scanned_extent r a.
Proof.
  unfold block_ok, Range_accepts, in_scanned_extent, ptr_add, to_size_t,
    SIZE_MAX1.
  intros (H0 & Hb & Hend). rewrite Z.mod_small by (unfold sizeof_size_t in *; lia).
  rewrite andb_true_iff, negb_true_iff. lia.
Qed.

Lemma Range_rejects_iff (r : mm2dev_t) (a : Z) :
  block_ok r → Range_accepts r a = false ↔ ¬ in_scanned_extent r a.
Proof.
  intros Hok. rewrite <- (Range_accepts_iff r a Hok).
  destruct (Range_accepts r a); split; intros; congruence.
Qed.

(** X11.  For a probe address that is not registered itself, with the
    registered blocks inside the address space, [Range] returns the host
    address of the first block in iteration order whose host address [h] and
    byte count [n] satisfy [h ≤ probe ≤ h + 8·n], and null when there is
    none.  The extent counts the bytes of the block as eight-byte words and
    includes its end. *)
Theorem Range_scans_words (P : platform) (s : state) (m : mm_t) (probe : Z) :
  mng s = Some m → m !! probe = None →
  Forall (λ e, block_ok e.2) (iteration P m) →
  ∃ a, mm.Range P probe s = Ok a s ∧
       ((∃ l1 e l2, iteration P m = l1 ++ e :: l2 ∧ a = h_adrs e.2 ∧
                    in_scanned_extent e.2 probe ∧
                    Forall (λ e', ¬ in_scanned_extent e'.2 probe) l1) ∨
        (a = NULL ∧
         Forall (λ e', ¬ in_scanned_extent e'.2 probe) (iteration P m))).
Proof.
  intros Hm Hk Hok. eexists. split; [by apply Range_unregistered|].
  assert (Hrej : ∀ l, l ⊆ iteration P m →
            Forall (λ e', Range_accepts e'.2 probe = false) l →
            Forall (λ e', ¬ in_scanned_extent e'.2 probe) l).
  { intros l Hsub Hl. rewrite Forall_forall in *. intros e He.
    apply Range_rejects_iff; [apply Hok; by apply Hsub|by apply Hl]. }
  destruct (Range_loop_first (iteration P m) probe)
    as [(l1 & e & l2 & Hl & Hl1 & He & Hr)|[Hl Hr]].
  - left. exists l1, e, l2. repeat split; try done.
    + apply Range_accepts_iff in He; [apply He|].
      rewrite Forall_forall in Hok. apply Hok. rewrite Hl. set_solver.
    + apply Range_accepts_iff in He; [apply He|].
      rewrite Forall_forall in Hok. apply Hok. rewrite Hl. set_solver.
    + apply Hrej; [|done]. rewrite Hl. set_solver.
  - right. split; [done|]. by apply Hrej.
Qed.

Lemma Range_scans_words_witness :
  ∃ a, mm.Range host_platform (4096 + 128) one_block = Ok a one_block ∧
       ((∃ l1 e l2,
           iteration host_platform {[ 4096 := block16 ]} = l1 ++ e :: l2 ∧
           a = h_adrs e.2 ∧ in_scanned_extent e.2 (4096 + 128) ∧
           Forall (λ e', ¬ in_scanned_extent e'.2 (4096 + 128)) l1) ∨
        (a = NULL ∧
         Forall (λ e', ¬ in_scanned_extent e'.2 (4096 + 128))
           (iteration host_platform {[ 4096 := block16 ]}))).
Proof.
  apply (Range_scans_words host_platform one_block {[ 4096 := block16 ]}
           (4096 + 128)).
  - reflexivity.
  - vm_compute. reflexivity.
  - apply Forall_forall. intros e He.
    apply elem_of_map_to_list' in He.
    apply lookup_singleton_Some in He as [_ <-]. vm_compute.
    repeat split; discriminate.
Defined.

(** ** What Known registers for an address inside a block *)

Lemma Range_loop_single_out (l1 l2 : list (Z * mm2dev_t)) (b a : Z)
    (rb : mm2dev_t) :
  h_adrs rb = b → Range_accepts rb a = true →
  Forall (λ e, Range_accepts e.2 a = false) l1 →
  mm.Range_loop (l1 ++ (b, rb) :: l2) a = b.
Proof.
  intros Hh Hacc Hl1. rewrite (Range_loop_skip _ _ _ Hl1).
  by rewrite (Range_loop_head (b, rb)).
Qed.



(** ** An address no block is around *)

Lemma Range_loop_all_rejected (l : list (Z * mm2dev_t)) (a : Z) :
  Forall (λ e, Range_accepts e.2 a = false) l → mm.Range_loop l a = NULL.
Proof.
  intros Hl. rewrite <- (app_nil_r l). by rewrite (Range_loop_skip _ _ _ Hl).
Qed.

(** X13.  For an address that is not registered and lies in the scanned
    extent of no registered block, [Known] with range insertion returns
    false and registers nothing, [Adrs] and [Erase] trap, and [Push] and
    [Pull] stop at their assertion. *)
Theorem stray_address (P : platform) (s : state) (m : mm_t) (a : Z) :
  iteration_ok P → mng s = Some m → m !! a = None →
  (∀ k r, m !! k = Some r → block_ok r ∧ ¬ in_scanned_extent r a) →
  mm.Known P a true s = Ok false s ∧
  mm.Adrs P a s = Fatal Trap ∧
  mm.Erase P a s = Fatal Trap ∧
  mm.Push P a s = Fatal AssertionFailed ∧
  mm.Pull P a s = Fatal AssertionFailed.
Proof.
  intros HP Hm Hk Hout.
  assert (Hrej : Forall (λ e, Range_accepts e.2 a = false) (iteration P m)).
  { apply Forall_forall. intros e He.
    apply (iteration_lookup P m e HP) in He.
    destruct (Hout _ _ He) as [Hok Hno]. by apply Range_rejects_iff. }
  assert (HK : mm.Known P a true s = Ok false s).
  { unfold mm.Known.
    rewrite (bind_Ok _ _ _ _ _ (Known_find_eq s m a Hm)).
    rewrite bool_decide_eq_false_2 by (rewrite Hk; by intros [? ?]).
    cbn [negb].
    rewrite (bind_Ok _ _ _ _ _ (Range_unregistered P s m a Hm Hk)).
    by rewrite (Range_loop_all_rejected _ _ Hrej). }
  split; [done|]. split; [|split; [|split]].
  - unfold mm.Adrs. cbv zeta. by rewrite (bind_Ok _ _ _ _ _ HK).
  - by apply (Erase_unregistered P s m).
  - unfold mm.Push.
    by rewrite (bind_Ok _ _ _ _ _ (Known_unregistered P s m a Hm Hk)).
  - unfold mm.Pull.
    by rewrite (bind_Ok _ _ _ _ _ (Known_unregistered P s m a Hm Hk)).
Qed.

Lemma stray_address_witness :
  mm.Known host_platform 8192 true one_block = Ok false one_block ∧
  mm.Adrs host_platform 8192 one_block = Fatal Trap.
Proof.
  destruct (stray_address host_platform one_block {[ 4096 := block16 ]} 8192)
    as (H1 & H2 & _).
  - intros m. reflexivity.
  - reflexivity.
  - vm_compute. reflexivity.
  - intros k r [_ <-]%lookup_singleton_Some. split.
    + vm_compute. repeat split; discriminate.
    + unfold in_scanned_extent. vm_compute. intros [_ H]. by apply H.
  - by split.
Defined.

(** ** Range insertion with the shifter on *)

(** X14.  Shifter on.  When [Known] with range insertion finds a block
    around an address that is not registered, it returns true, but the
    record it files goes under the address moved up by [2^51] bytes, since
    [Insert] applies the offset to the address it is handed.  The address
    itself is still not registered: [Known] of it without range insertion
    is false right after. *)
Theorem shifted_Known_files_elsewhere (P : platform) (s : state) (m : mm_t)
    (a b : Z) (rb : mm2dev_t) (l1 l2 : list (Z * mm2dev_t)) :
  mng s = Some m → shifter_on s →
  m !! b = Some rb → h_adrs rb = b → 0 < b → 0 < bytes rb → b < a →
  Range_accepts rb a = true →
  a + 2 ^ 51 < SIZE_MAX1 →
  m !! a = None → m !! (a + 2 ^ 51) = None →
  iteration P m = l1 ++ (b, rb) :: l2 →
  Forall (λ e, Range_accepts e.2 a = false) l1 →
  ∃ s', mm.Known P a true s = Ok true s' ∧
        entry s' a = None ∧
        is_Some (entry s' (a + 2 ^ 51)) ∧
        mm.Known P a false s' = Ok false s'.
Proof.
  intros Hm Hon Hb Hh Hnn Hn Hlt Hacc Hend Hfree Hfresh Hit Hl1.
  assert (H0 : 0 ≤ a) by lia.
  assert (Hkey : Insert_key P s a = a + 2 ^ 51)
    by (by apply (Insert_key_on P s m)).
  assert (Hne : a + 2 ^ 51 ≠ a) by lia.
  eexists. split.
  { apply (Known_range_insert P s m a b rb); try done.
    - rewrite Hit. by apply Range_loop_single_out.
    - unfold NULL. lia.
    - by rewrite Hkey. }
  rewrite Hkey. unfold entry. cbn [with_mng mng].
  split; [by rewrite lookup_insert_ne|]. split.
  - rewrite lookup_insert_eq. eauto.
  - eapply Known_unregistered; [reflexivity|]. by rewrite lookup_insert_ne.
Qed.

Lemma shifted_Known_files_elsewhere_witness :
  ∃ s', mm.Known shifted_platform (4096 + 2 ^ 51 + 8) true shifted_block
          = Ok true s' ∧
        entry s' (4096 + 2 ^ 51 + 8) = None ∧
        is_Some (entry s' (4096 + 2 ^ 51 + 8 + 2 ^ 51)) ∧
        mm.Known shifted_platform (4096 + 2 ^ 51 + 8) false s' = Ok false s'.
Proof.
  apply (shifted_Known_files_elsewhere shifted_platform shifted_block
           {[ 4096 + 2 ^ 51 := Insert_record (4096 + 2 ^ 51) 16 1 false ]}
           (4096 + 2 ^ 51 + 8) (4096 + 2 ^ 51)
           (Insert_record (4096 + 2 ^ 51) 16 1 false) [] []).
  - reflexivity.
  - by split.
  - vm_compute; reflexivity.
  - vm_compute; reflexivity.
  - lia.
  - vm_compute; reflexivity.
  - lia.
  - vm_compute; reflexivity.
  - unfold SIZE_MAX1. lia.
  - vm_compute; reflexivity.
  - vm_compute; reflexivity.
  - vm_compute; reflexivity.
  - constructor.
Defined.

(** ** Insert never overwrites *)

(** X15.  [Insert] either files its record under a key that was free, and
    then returns that key and changes nothing else, or it is fatal: a trap
    when the key holds a record not marked ranged, a failed assertion when it
    holds one that is.  A record on file is never overwritten. *)
Theorem Insert_never_overwrites (P : platform) (s : state) (m0 : mm_t)
    (a n sz : Z) (rg : bool) :
  mng (ready P s) = Some m0 →
  match m0 !! Insert_key P s a with
  | None =>
      ∃ s', mm.Insert P a n sz rg s = Ok (Insert_key P s a) s' ∧
            entry s' (Insert_key P s a)
              = Some (Insert_record (Insert_key P s a) n sz rg) ∧
            (∀ q, q ≠ Insert_key P s a → entry s' q = entry (ready P s) q) ∧
            trace s' = trace (ready P s)
  | Some r =>
      mm.Insert P a n sz rg s
        = Fatal (if ranged r then AssertionFailed else Trap)
  end.
Proof.
  intros Hm. destruct (m0 !! Insert_key P s a) as [r|] eqn:Hk.
  - by apply (Insert_present P s m0).
  - eexists. split; [by apply Insert_fresh|].
    unfold entry. cbn [with_mng mng trace]. rewrite Hm. repeat split.
    + apply lookup_insert_eq.
    + intros q Hq. by apply lookup_insert_ne.
Qed.

Lemma Insert_never_overwrites_witness :
  mm.Insert host_platform 4096 100 8 true one_block = Fatal Trap.
Proof.
  exact (Insert_never_overwrites host_platform one_block {[ 4096 := block16 ]}
           4096 100 8 true eq_refl).
Defined.
